(** * MYNGO: the card engine and the timing model of [myngo-utils.ts]

    A shallow embedding of [src/utils/myngo-utils.ts] and of the types of
    [src/types/myngo.ts] it uses, followed by the properties of the
    win classifier, the near-win classifier, the card generator, the
    letter lookup, the available-number filter and the timing formulas.

    Conventions of the embedding:
    - a JavaScript call either returns or throws: [completion];
    - card numbers, marked numbers and called numbers are integers ([Z]);
      a column of a card is [Some] array or [None] when the property is
      missing (or otherwise falsy), the card itself and the marked array
      may be [None] (null / undefined), as the guards of the code expect;
    - [Set<number>] is a [gset Z];
    - reading an array out of range gives [Undefined];
    - [Math.random] is a sequence of rationals, consumed one by one;
    - [console.log] / [console.error] calls do not influence any result
      and are left out;
    - the numbers of the timing model are IEEE 754 binary64 values
      ([spec_float] at precision 53), see [Module Number]; the one
      property that depends on the values of the logarithm is stated for
      the formula over the reals, see [Module RealModel]. *)

From Stdlib Require Import ZArith QArith Qround Reals Lra Lia List String Bool.
From Stdlib Require Import Sorting.Permutation Sorting.Sorted.
From Stdlib Require Import Floats.SpecFloat.
From Stdlib Require Import Ascii.
From stdpp Require Import base option list gmap sets strings pretty.

Open Scope string_scope.
Open Scope list_scope.
Open Scope Z_scope.

(** ** Completions: return or throw *)

Inductive completion (A : Type) : Type :=
| Normal (a : A)
| Throw (message : string).
Arguments Normal {A} a.
Arguments Throw {A} message.

#[global] Instance completion_ret : MRet completion := fun A a => Normal a.
#[global] Instance completion_bind : MBind completion :=
  fun A B k m => match m with Normal a => k a | Throw e => Throw e end.

(** [try { body } catch (error) { handler }] *)
Definition try_catch {A} (body : completion A) (handler : string -> completion A)
  : completion A :=
  match body with
  | Normal a => Normal a
  | Throw e => handler e
  end.

Definition throws {A} (c : completion A) : Prop := exists e, c = Throw e.

(** ** Types of [types/myngo.ts] *)

Record MyngoCard : Type := mkCard {
  col_M : option (list Z);
  col_Y : option (list Z);
  col_N : option (list Z);
  col_G : option (list Z);
  col_O : option (list Z)
}.

Inductive Letter : Type := LM | LY | LN | LG | LO.

Record CalledNumber : Type := mkCalled {
  id : string;
  room_id : string;
  number : Z;
  letter : Letter;
  called_at : string
}.

Inductive WinPattern : Type := Row | Column | Diagonal.

Record WinCheck : Type := mkWinCheck {
  hasWin : bool;
  pattern : option WinPattern;
  line : option nat
}.

Definition noWin : WinCheck :=
  {| hasWin := false; pattern := None; line := None |}.
Definition win (p : WinPattern) (i : nat) : WinCheck :=
  {| hasWin := true; pattern := Some p; line := Some i |}.

(** A cell of the 5x5 array: [number | 'WILD'], or [undefined] when the
    column it was read from was too short. *)
Inductive cell : Type :=
| Num (n : Z)
| WILD
| Undefined.

#[global] Instance cell_eq_dec : EqDecision cell.
Proof. solve_decision. Defined.
#[global] Instance WinPattern_eq_dec : EqDecision WinPattern.
Proof. solve_decision. Defined.
#[global] Instance WinCheck_eq_dec : EqDecision WinCheck.
Proof. solve_decision. Defined.

(** ** The card engine *)

Module CardEngine.

(** [column[row]] on a number array. *)
Definition at_index (column : list Z) (i : nat) : cell :=
  match column !! i with
  | Some n => Num n
  | None => Undefined
  end.

(** [cardToArray]: throws when the card or one of its columns is missing,
    otherwise fills the rows 0..4 position by position; the N column has
    the wild cell in row 2 and its stored values around it. *)
Definition cardToArray_row (cM cY cN cG cO : list Z) (r : nat) : list cell :=
  [ at_index cM r;
    at_index cY r;
    (if Nat.eqb r 2 then WILD
     else let nIndex := if Nat.ltb r 2 then r else (r - 1)%nat in
          at_index cN nIndex);
    at_index cG r;
    at_index cO r ].

Definition cardToArray (card : option MyngoCard) : completion (list (list cell)) :=
  match card with
  | Some {| col_M := Some cM; col_Y := Some cY; col_N := Some cN;
            col_G := Some cG; col_O := Some cO |} =>
      Normal (map (cardToArray_row cM cY cN cG cO) (seq 0 5))
  | _ => Throw "Invalid card structure"
  end.

(** [cardArray[r][c]]: indexing a missing row is a [TypeError], a missing
    entry of an existing row is [undefined]. *)
Definition cell_at (cardArray : list (list cell)) (r c : nat) : completion cell :=
  match cardArray !! r with
  | Some cells => Normal (default Undefined (cells !! c))
  | None => Throw "TypeError"
  end.

(** [marked.has(cell as number)] for a cell that is not ['WILD']. *)
Definition has (marked : gset Z) (c : cell) : bool :=
  match c with
  | Num n => bool_decide (n ∈ marked)
  | _ => false
  end.

Inductive LineType : Type := TRow | TColumn.
Inductive DiagonalType : Type := Main | Anti.

(** The loop shared by [checkLine] and [checkDiagonal]:
    [for (i ...) { cell = ...; if (cell === 'WILD') continue;
                   if (!marked.has(cell)) return false; } return true]. *)
Fixpoint all_marked (marked : gset Z) (cellAt : nat -> completion cell)
    (idxs : list nat) : completion bool :=
  match idxs with
  | [] => Normal true
  | i :: rest =>
      c ← cellAt i;
      match c with
      | WILD => all_marked marked cellAt rest
      | _ => if has marked c then all_marked marked cellAt rest
             else Normal false
      end
  end.

Definition checkLine (cardArray : list (list cell)) (marked : gset Z)
    (index : nat) (type : LineType) : completion bool :=
  all_marked marked
    (fun i => match type with
              | TRow => cell_at cardArray index i
              | TColumn => cell_at cardArray i index
              end)
    (seq 0 5).

Definition checkDiagonal (cardArray : list (list cell)) (marked : gset Z)
    (type : DiagonalType) : completion bool :=
  all_marked marked
    (fun i => match type with
              | Main => cell_at cardArray i i
              | Anti => cell_at cardArray i (4 - i)%nat
              end)
    (seq 0 5).

(** [for (let i = 0; i < 5; i++) { if (check(i)) return found(i); }]
    followed by the rest of the function. *)
Fixpoint first_complete (check : nat -> completion bool) (found : nat -> WinCheck)
    (idxs : list nat) (rest : completion WinCheck) : completion WinCheck :=
  match idxs with
  | [] => rest
  | i :: idxs' =>
      b ← check i;
      if b : bool then Normal (found i) else first_complete check found idxs' rest
  end.

(** The three "Check ..." blocks of [checkWin], in their order. *)
Definition checkWin_lines (cardArray : list (list cell)) (marked : gset Z)
  : completion WinCheck :=
  first_complete (fun r => checkLine cardArray marked r TRow) (win Row) (seq 0 5)
    (first_complete (fun c => checkLine cardArray marked c TColumn) (win Column) (seq 0 5)
       (m ← checkDiagonal cardArray marked Main;
        if m : bool then Normal (win Diagonal 0)
        else
          a ← checkDiagonal cardArray marked Anti;
          if a : bool then Normal (win Diagonal 1)
          else Normal noWin)).

Definition checkWin (card : option MyngoCard) (markedNumbers : option (list Z))
  : completion WinCheck :=
  match card, markedNumbers with
  | None, _ | _, None | _, Some [] => Normal noWin
  | Some _, Some ((_ :: _) as markedNumbers) =>
      try_catch
        (cardArray ← cardToArray card;
         let marked : gset Z := list_to_set markedNumbers in
         checkWin_lines cardArray marked)
        (fun _ => Normal noWin)
  end.

(** The candidate lines of [isCloseToWin]. *)
Record Line : Type := mkLine { type : WinPattern; index : nat }.

Definition lines : list Line :=
  map (mkLine Row) (seq 0 5) ++ map (mkLine Column) (seq 0 5)
    ++ [ mkLine Diagonal 0; mkLine Diagonal 1 ].

(** [for (...) { cell = ...; if (cell !== 'WILD' && !marked.has(cell))
                 unmarkedCount++; }] *)
Fixpoint count_unmarked (marked : gset Z) (cellAt : nat -> completion cell)
    (idxs : list nat) (unmarkedCount : nat) : completion nat :=
  match idxs with
  | [] => Normal unmarkedCount
  | i :: rest =>
      c ← cellAt i;
      match c with
      | WILD => count_unmarked marked cellAt rest unmarkedCount
      | _ => if has marked c then count_unmarked marked cellAt rest unmarkedCount
             else count_unmarked marked cellAt rest (S unmarkedCount)
      end
  end.

Definition line_unmarked (cardArray : list (list cell)) (marked : gset Z)
    (l : Line) : completion nat :=
  count_unmarked marked
    (fun i => match type l with
              | Row => cell_at cardArray (index l) i
              | Column => cell_at cardArray i (index l)
              | Diagonal => if Nat.eqb (index l) 0 then cell_at cardArray i i
                            else cell_at cardArray i (4 - i)%nat
              end)
    (seq 0 5) 0%nat.

(** [for (const line of lines) { ...; if (unmarkedCount === 1) return true; }
    return false] *)
Fixpoint any_one_away (cardArray : list (list cell)) (marked : gset Z)
    (ls : list Line) : completion bool :=
  match ls with
  | [] => Normal false
  | l :: rest =>
      unmarkedCount ← line_unmarked cardArray marked l;
      if Nat.eqb unmarkedCount 1 then Normal true
      else any_one_away cardArray marked rest
  end.

(** The statements that [isCloseToWin] runs inside its [try] and that
    [isCloseToWinLegacy] runs unprotected (the two texts are the same). *)
Definition closeToWin_body (card : option MyngoCard) (markedNumbers : list Z)
  : completion bool :=
  cardArray ← cardToArray card;
  let marked : gset Z := list_to_set markedNumbers in
  any_one_away cardArray marked lines.

Definition isCloseToWin (card : option MyngoCard) (markedNumbers : option (list Z))
  : completion bool :=
  match card, markedNumbers with
  | None, _ | _, None | _, Some [] => Normal false
  | Some _, Some ((_ :: _) as markedNumbers) =>
      try_catch (closeToWin_body card markedNumbers) (fun _ => Normal false)
  end.

Definition isCloseToWinLegacy (card : option MyngoCard) (markedNumbers : option (list Z))
  : completion bool :=
  match card, markedNumbers with
  | None, _ | _, None | _, Some [] => Normal false
  | Some _, Some ((_ :: _) as markedNumbers) => closeToWin_body card markedNumbers
  end.

End CardEngine.

(** ** Card generation *)

Module Generator.

(** [Math.random()] is the only effect of the generator: the random
    source is the sequence of the values it returns, and the state threaded
    through the calls is the number of values consumed so far.  ECMAScript
    promises values in the half-open interval from 0 to 1. *)
Definition RandomSource : Type := nat -> Q.

Definition unit_draws (rnd : RandomSource) : Prop :=
  forall k, (0 <= rnd k)%Q /\ (rnd k < 1)%Q.

(** [Math.floor(Math.random() * available.length)]; the product is taken
    exactly. *)
Definition randomIndex (r : Q) (available : list Z) : nat :=
  Z.to_nat (Qfloor (r * inject_Z (Z.of_nat (length available)))).

(** [available.splice(randomIndex, 1)[0]] with the array it leaves.  An
    index outside the array would give [undefined], a value outside
    [number[]]: [None]. *)
Definition splice1 (available : list Z) (i : nat) : option (Z * list Z) :=
  match available !! i with
  | Some x => Some (x, delete i available)
  | None => None
  end.

(** The [for] loop of [getRandomNumbers]; [k] counts the draws. *)
Fixpoint draw (rnd : RandomSource) (k : nat) (count : nat)
    (available numbers : list Z) : option (list Z * nat) :=
  match count with
  | O => Some (numbers, k)
  | S count' =>
      match splice1 available (randomIndex (rnd k) available) with
      | Some (x, available') => draw rnd (S k) count' available' (numbers ++ [x])
      | None => None
      end
  end.

(** [numbers.sort((a, b) => a - b)]: the ascending arrangement. *)
Fixpoint insert_sorted (x : Z) (l : list Z) : list Z :=
  match l with
  | [] => [x]
  | y :: l' => if x <=? y then x :: l else y :: insert_sorted x l'
  end.

Definition sort (l : list Z) : list Z := foldr insert_sorted [] l.

Definition getRandomNumbers (rnd : RandomSource) (k : nat) (min max : Z) (count : nat)
  : option (list Z * nat) :=
  let available := map (fun i => min + Z.of_nat i) (seq 0 (Z.to_nat (max - min + 1))) in
  match draw rnd k count available [] with
  | Some (numbers, k') => Some (sort numbers, k')
  | None => None
  end.


End Generator.

(** ** Letters and available numbers *)

Definition getLetterForNumber (num : Z) : completion Letter :=
  if (1 <=? num) && (num <=? 15) then Normal LM
  else if (16 <=? num) && (num <=? 30) then Normal LY
  else if (31 <=? num) && (num <=? 45) then Normal LN
  else if (46 <=? num) && (num <=? 60) then Normal LG
  else if (61 <=? num) && (num <=? 75) then Normal LO
  else Throw ("Invalid MYNGO number: " +:+ pretty num).

Definition getAvailableNumbers (calledNumbers : list CalledNumber) : list Z :=
  let allNumbers := map (fun i => Z.of_nat i + 1) (seq 0 75) in
  let calledSet : gset Z := list_to_set (map number calledNumbers) in
  List.filter (fun num => negb (bool_decide (num ∈ calledSet))) allNumbers.

(** ** JavaScript numbers *)

(** A Number is an IEEE 754 binary64 value.  The arithmetic operators
    are the correctly rounded operations of [SpecFloat]; [Math.round],
    [Math.ceil], [Math.min], [Math.max] and the special values of
    [Math.log10] follow ECMAScript. *)
Module Number.

Definition prec : Z := 53.
Definition emax : Z := 1024.

Definition float64 : Type := spec_float.

Definition NaN : float64 := S754_nan.
Definition Infinity : float64 := S754_infinity false.
Definition neg_Infinity : float64 := S754_infinity true.
Definition pos_zero : float64 := S754_zero false.
Definition neg_zero : float64 := S754_zero true.

(** An integer literal. *)
Definition of_Z (n : Z) : float64 := binary_normalize prec emax n 0 false.

Definition add : float64 -> float64 -> float64 := SFadd prec emax.
Definition sub : float64 -> float64 -> float64 := SFsub prec emax.
Definition mul : float64 -> float64 -> float64 := SFmul prec emax.
Definition div : float64 -> float64 -> float64 := SFdiv prec emax.

(** A decimal literal [num/den], e.g. [0.90]: the binary64 value nearest
    to it, which is the correctly rounded quotient. *)
Definition decimal (num den : Z) : float64 := div (of_Z num) (of_Z den).

Definition is_NaN (x : float64) : bool :=
  match x with S754_nan => true | _ => false end.

Definition is_zero (x : float64) : bool :=
  match x with S754_zero _ => true | _ => false end.

Definition is_infinite (x : float64) : bool :=
  match x with S754_infinity _ => true | _ => false end.

Definition is_finite (x : float64) : bool :=
  match x with S754_zero _ | S754_finite _ _ _ => true | _ => false end.

Definition le (x y : float64) : Prop := SFleb x y = true.
Definition lt (x y : float64) : Prop := SFltb x y = true.

(** [Math.round]: the nearest integer, ties towards +Infinity; NaN,
    infinities, zeros and integral values are returned as they are, and a
    result of zero keeps the sign of the argument. *)
Definition Math_round (x : float64) : float64 :=
  match x with
  | S754_finite s m e =>
      if 0 <=? e then x
      else
        let v := cond_Zopp s (Zpos m) in
        let d := 2 ^ (- e) in
        binary_normalize prec emax ((2 * v + d) / (2 * d)) 0 s
  | _ => x
  end.

(** [Math.ceil]: the least integer not below the argument. *)
Definition Math_ceil (x : float64) : float64 :=
  match x with
  | S754_finite s m e =>
      if 0 <=? e then x
      else
        let v := cond_Zopp s (Zpos m) in
        let d := 2 ^ (- e) in
        binary_normalize prec emax (- ((- v) / d)) 0 s
  | _ => x
  end.

(** [Math.min] and [Math.max] of two values: NaN if either is NaN, and
    -0 is below +0. *)
Definition Math_min (a b : float64) : float64 :=
  match SFcompare a b with
  | None => NaN
  | Some Lt => a
  | Some Gt => b
  | Some Eq => match a with S754_zero false => b | _ => a end
  end.

Definition Math_max (a b : float64) : float64 :=
  match SFcompare a b with
  | None => NaN
  | Some Lt => b
  | Some Gt => a
  | Some Eq => match a with S754_zero true => b | _ => a end
  end.

Section Timing.

(** [Math.log10] is fixed by ECMAScript at NaN, the infinities, the zeros,
    the negative numbers and 1; everywhere else it is an
    implementation-approximated value, taken from the platform. *)
Variable log10_approx : float64 -> float64.

Definition Math_log10 (x : float64) : float64 :=
  match x with
  | S754_nan => NaN
  | S754_zero _ => neg_Infinity
  | S754_infinity false => Infinity
  | S754_infinity true => NaN
  | S754_finite true _ _ => NaN
  | S754_finite false _ _ =>
      if SFeqb x (of_Z 1) then pos_zero else log10_approx x
  end.

(** *** [calculateCallFrequency] *)





(** *** [calculateCallsNeeded] *)

(** [const result = Math.ceil(50 - 10 * Math.log10(players))] *)
Definition callsNeeded_result (players : float64) : float64 :=
  Math_ceil (sub (of_Z 50) (mul (of_Z 10) (Math_log10 players))).

Definition calculateCallsNeeded (players : float64) : float64 :=
  Math_max (of_Z 15) (Math_min (of_Z 75) (callsNeeded_result players)).

(** *** [calculateSecondsBetweenCalls] *)

Definition buffer : float64 := decimal 85 100.

(** [const availableSeconds = meetingMinutes * 60 * buffer] *)
Definition bufferedSeconds (meetingMinutes : float64) : float64 :=
  mul (mul meetingMinutes (of_Z 60)) buffer.

(** [const secondsPerCall = Math.round(availableSeconds / callsNeeded)] *)
Definition betweenCalls_secondsPerCall (meetingMinutes callsNeeded : float64) : float64 :=
  Math_round (div (bufferedSeconds meetingMinutes) callsNeeded).

Definition calculateSecondsBetweenCalls (meetingMinutes callsNeeded : float64) : float64 :=
  Math_max (of_Z 5) (Math_min (of_Z 120) (betweenCalls_secondsPerCall meetingMinutes callsNeeded)).

End Timing.

End Number.

(** ** The remaining functions of [myngo-utils.ts] *)

Module Utils.
Import Generator.



(** [Math.floor(Math.random() * n)] for an integer [n]; the product is
    taken exactly. *)
Definition floor_random (r : Q) (n : Z) : Z := Qfloor (r * inject_Z n).

(** [s.charAt(i)]: the character as a string, the empty string out of
    range. *)
Definition charAt (s : string) (i : Z) : string :=
  if i <? 0 then ""
  else match String.get (Z.to_nat i) s with
       | Some c => String c EmptyString
       | None => ""
       end.

Definition chars : string := "ABCDEFGHJKLMNPQRSTUVWXYZ23456789".

(** The loop of [generateRoomCode]: [n] more characters appended to [code]. *)
Fixpoint generateRoomCode_loop (rnd : RandomSource) (k n : nat) (code : string)
  : string * nat :=
  match n with
  | O => (code, k)
  | S n' =>
      generateRoomCode_loop rnd (S k) n'
        (code +:+ charAt chars (floor_random (rnd k) (Z.of_nat (String.length chars))))
  end.

Definition generateRoomCode (rnd : RandomSource) (k : nat) : string * nat :=
  generateRoomCode_loop rnd k 6 "".




End Utils.

(** ** The callers of the utilities *)

(** The [MyngoCard] component ([handleCellClick] and the [canClick] flag of
    a cell), and from the player page [handleMarkNumber] and the test
    [isDifferent] that synchronises the marks. *)
Module PlayerView.
Import CardEngine.

(** [array.includes(n)] *)
Definition includes (l : list Z) (n : Z) : bool := bool_decide (n ∈ l).

(** [handleCellClick]: the number handed to [onMarkNumber], or [None] when
    the handler returns without calling it. *)
Definition handleCellClick (canMark : bool) (calledNumbers markedNumbers : list Z)
    (c : cell) : option Z :=
  let markedSet : gset Z := list_to_set markedNumbers in
  let calledSet : gset Z := list_to_set calledNumbers in
  match c with
  | WILD => None
  | _ =>
      if negb canMark then None
      else if negb (has calledSet c) then None
      else if has markedSet c then None
      else match c with Num n => Some n | _ => None end
  end.

(** The flags computed for every cell of the rendered grid. *)
Definition canClick (canMark : bool) (calledNumbers markedNumbers : list Z)
    (c : cell) : bool :=
  let markedSet : gset Z := list_to_set markedNumbers in
  let calledSet : gset Z := list_to_set calledNumbers in
  let isWild := bool_decide (c = WILD) in
  let isMarked := isWild || has markedSet c in
  let isCalled := isWild || has calledSet c in
  canMark && negb isWild && isCalled && negb isMarked.

(** [handleMarkNumber]: the new value of the state [markedNumbers]
    ([currentPlayer] tells whether a player is loaded). *)
Definition handleMarkNumber (currentPlayer : bool) (markedNumbers : list Z)
    (number : Z) : list Z :=
  if includes markedNumbers number then markedNumbers
  else if negb currentPlayer then markedNumbers
  else markedNumbers ++ [number].

(** A click on a cell of the card in the player page, where
    [onMarkNumber] is [handleMarkNumber]. *)
Definition clickCell (canMark currentPlayer : bool) (calledNumbers markedNumbers : list Z)
    (c : cell) : list Z :=
  match handleCellClick canMark calledNumbers markedNumbers c with
  | Some number => handleMarkNumber currentPlayer markedNumbers number
  | None => markedNumbers
  end.

(** [isDifferent]: sizes differ, or some element of one set is missing in
    the other. *)
Definition isDifferent (markedNumbers playerMarked : list Z) : bool :=
  let currentMarkedSet : gset Z := list_to_set markedNumbers in
  let playerMarkedSet : gset Z := list_to_set playerMarked in
  negb (Nat.eqb (size currentMarkedSet) (size playerMarkedSet))
  || existsb (fun num => negb (bool_decide (num ∈ playerMarkedSet))) (elements currentMarkedSet)
  || existsb (fun num => negb (bool_decide (num ∈ currentMarkedSet))) (elements playerMarkedSet).

End PlayerView.

(** From the host dashboard and the service: the choice of the next number
    to call, and what a bot marks when a number is called. *)
Module Host.
Import Generator Utils PlayerView.



End Host.

(** The status shown for a player in the player list ([getPlayerStatus])
    and the test of the host's near-win panel ([nearWinPlayers]); a missing
    card or a missing array of marks is falsy, an empty array is not. *)
Inductive PlayerStatus : Type := StatusWinner | StatusClose | StatusPlaying.

Module PlayerList.
Import CardEngine.

(** The statements inside the [try] of [getPlayerStatus]. *)
Definition getPlayerStatus_body (is_winner : bool) (card : option MyngoCard)
    (marked_numbers : option (list Z)) : completion PlayerStatus :=
  if is_winner then Normal StatusWinner
  else
    match card, marked_numbers with
    | Some _, Some _ =>
        close ← isCloseToWin card marked_numbers;
        Normal (if close : bool then StatusClose else StatusPlaying)
    | _, _ => Normal StatusPlaying
    end.

Definition getPlayerStatus (is_winner : bool) (card : option MyngoCard)
    (marked_numbers : option (list Z)) : completion PlayerStatus :=
  try_catch (getPlayerStatus_body is_winner card marked_numbers)
    (fun _ => Normal (if is_winner then StatusWinner else StatusPlaying)).

(** The statements inside the [try] of the callback of [nearWinPlayers]. *)
Definition nearWinPlayers_body (card : option MyngoCard)
    (marked_numbers : option (list Z)) : completion bool :=
  match card, marked_numbers with
  | Some _, Some _ => isCloseToWin card marked_numbers
  | _, _ => Normal false
  end.

Definition nearWinPlayers_keeps (card : option MyngoCard)
    (marked_numbers : option (list Z)) : completion bool :=
  try_catch (nearWinPlayers_body card marked_numbers) (fun _ => Normal false).

End PlayerList.

(** The three values computed by the set-up page; the third feeds the
    second function's result into [calculateSecondsBetweenCalls]. *)
Module HostSetup.
Import Number.

Definition secondsBetweenCalls (log10_approx : float64 -> float64)
    (expectedPlayers meetingDuration : float64) : float64 :=
  let callsNeeded := calculateCallsNeeded log10_approx expectedPlayers in
  calculateSecondsBetweenCalls meetingDuration callsNeeded.

End HostSetup.

(** ** The formula of [calculateCallsNeeded] over the real numbers *)

(** ECMAScript leaves the values of [Math.log10] on ordinary arguments to
    the platform, so an order property of [calculateCallsNeeded] cannot be
    read off the binary64 model.  This module is the same function with
    the arithmetic of the formula read over the reals: [log10 x] is
    [ln x / ln 10] and [Math.ceil] the least integer not below. *)
Module RealModel.
Local Open Scope R_scope.

Definition log10 (x : R) : R := ln x / ln 10.

Definition calculateCallsNeeded (players : R) : Z :=
  let result := Zceil (50 - 10 * log10 players) in
  Z.max 15 (Z.min 75 result).

End RealModel.

(** ** The classifiers in the words of the specification *)

Module Spec.
Import CardEngine.

Definition column_ok (n : nat) (c : option (list Z)) : bool :=
  match c with
  | Some l => Nat.eqb (length l) n
  | None => false
  end.

(** A well-formed card stores 5, 5, 4, 5 and 5 numbers. *)
Definition well_formedb (card : MyngoCard) : bool :=
  column_ok 5 (col_M card) && column_ok 5 (col_Y card) && column_ok 4 (col_N card)
  && column_ok 5 (col_G card) && column_ok 5 (col_O card).

Definition well_formed (card : MyngoCard) : Prop := well_formedb card = true.
Definition malformed (card : MyngoCard) : Prop := well_formedb card = false.

Definition missing_column (card : MyngoCard) : Prop :=
  col_M card = None \/ col_Y card = None \/ col_N card = None
  \/ col_G card = None \/ col_O card = None.

(** The columns as they are displayed: the stored values from top to
    bottom, the N column with the free cell between its second and third
    stored value. *)
Definition displayed_columns (card : MyngoCard) : list (list cell) :=
  let stored (c : option (list Z)) : list cell := Num <$> default [] c in
  [ stored (col_M card);
    stored (col_Y card);
    take 2 (stored (col_N card)) ++ [WILD] ++ drop 2 (stored (col_N card));
    stored (col_G card);
    stored (col_O card) ].

(** Row [i], column [j] of the logical grid. *)
Definition grid_cell (card : MyngoCard) (i j : nat) : cell :=
  default Undefined (displayed_columns card !! j ≫= (.!! i)).

Definition grid_rows (card : MyngoCard) : list (list cell) :=
  map (fun i => map (grid_cell card i) (seq 0 5)) (seq 0 5).

(** The twelve candidate lines in the order of the check. *)
Definition candidate_lines : list (WinPattern * nat) :=
  [ (Row, 0); (Row, 1); (Row, 2); (Row, 3); (Row, 4);
    (Column, 0); (Column, 1); (Column, 2); (Column, 3); (Column, 4);
    (Diagonal, 0); (Diagonal, 1) ]%nat.

Definition line_positions (l : WinPattern * nat) : list (nat * nat) :=
  match l with
  | (Row, i) => [ (i, 0); (i, 1); (i, 2); (i, 3); (i, 4) ]
  | (Column, j) => [ (0, j); (1, j); (2, j); (3, j); (4, j) ]
  | (Diagonal, 0) => [ (0, 0); (1, 1); (2, 2); (3, 3); (4, 4) ]
  | (Diagonal, _) => [ (0, 4); (1, 3); (2, 2); (3, 1); (4, 0) ]
  end%nat.

Section Grid.
Variable g : nat -> nat -> cell.
Variable marked : gset Z.

(** A cell is satisfied iff it is the free cell or its number is marked. *)
Definition satisfied (c : cell) : bool :=
  match c with
  | WILD => true
  | Num n => bool_decide (n ∈ marked)
  | Undefined => false
  end.

Definition line_cells (l : WinPattern * nat) : list cell :=
  map (fun p => g (fst p) (snd p)) (line_positions l).

Definition line_satisfied (l : WinPattern * nat) : bool :=
  forallb satisfied (line_cells l).

Definition unmarked_count (l : WinPattern * nat) : nat :=
  length (List.filter (fun c => negb (satisfied c)) (line_cells l)).

Definition classify_on : WinCheck :=
  match List.find line_satisfied candidate_lines with
  | Some (p, i) => win p i
  | None => noWin
  end.

Definition near_win_on : bool :=
  existsb (fun l => Nat.eqb (unmarked_count l) 1) candidate_lines.

(** What a result says about the lines: a reported line is fully
    satisfied and no line before it in the order is; no-win means that
    no line is fully satisfied. *)
Inductive reports : WinCheck -> Prop :=
| reports_win before p i after :
    candidate_lines = before ++ (p, i) :: after ->
    Forall (fun l => line_satisfied l = false) before ->
    line_satisfied (p, i) = true ->
    reports (win p i)
| reports_none :
    Forall (fun l => line_satisfied l = false) candidate_lines ->
    reports noWin.
End Grid.


Definition classifyCard (card : MyngoCard) (marked : gset Z) : WinCheck :=
  classify_on (grid_cell card) marked.

Definition classifyNearWin (card : MyngoCard) (marked : gset Z) : bool :=
  near_win_on (grid_cell card) marked.




#[global] Instance number_eq_dec : EqDecision spec_float.
Proof. solve_decision. Defined.



End Spec.

(** ** Vocabulary of the further properties *)

Module Derived.

(** The numbers stored on a card, column after column (the array
    [cardNumbers] of the service and of the called-numbers panel). *)
Definition card_numbers (card : MyngoCard) : list Z :=
  default [] (col_M card) ++ default [] (col_Y card) ++ default [] (col_N card)
  ++ default [] (col_G card) ++ default [] (col_O card).

(** The numbers 1..75. *)
Definition all_numbers : list Z := map Z.of_nat (seq 1 75).

(** The numbers on a line of a grid, the free cell left out. *)
Definition cell_number (c : cell) : option Z :=
  match c with
  | Num n => Some n
  | _ => None
  end.

Definition line_numbers (g : nat -> nat -> cell) (l : WinPattern * nat) : list Z :=
  omap cell_number (Spec.line_cells g l).

(** The characters left out of room codes. *)
Definition ambiguous (c : Ascii.ascii) : Prop :=
  c = "I"%char \/ c = "O"%char \/ c = "0"%char \/ c = "1"%char.

End Derived.

(** ** Sample inputs *)

(** A well-formed card. *)
Definition sample_card : MyngoCard :=
  mkCard (Some [1; 2; 3; 4; 5]) (Some [16; 17; 18; 19; 20])
         (Some [31; 32; 33; 34]) (Some [46; 47; 48; 49; 50])
         (Some [61; 62; 63; 64; 65]).

(** A card without its M column. *)
Definition card_without_M : MyngoCard :=
  mkCard None (Some [16; 17; 18; 19; 20]) (Some [31; 32; 33; 34])
         (Some [46; 47; 48; 49; 50]) (Some [61; 62; 63; 64; 65]).

(** A card whose M column stores six numbers. *)
Definition card_long_M : MyngoCard :=
  mkCard (Some [1; 2; 3; 4; 5; 6]) (Some [16; 17; 18; 19; 20])
         (Some [31; 32; 33; 34]) (Some [46; 47; 48; 49; 50])
         (Some [61; 62; 63; 64; 65]).

(** A card whose O column stores four numbers. *)
Definition card_short_O : MyngoCard :=
  mkCard (Some [1; 2; 3; 4; 5]) (Some [16; 17; 18; 19; 20])
         (Some [31; 32; 33; 34]) (Some [46; 47; 48; 49; 50])
         (Some [61; 62; 63; 64]).

(** A random source that keeps returning one half. *)
Definition always_half : Generator.RandomSource := fun _ => (1 # 2)%Q.

(** * Properties *)

(** ** The loops of the card engine *)

Import CardEngine Spec.

Lemma all_marked_spec (marked : gset Z) cellAt (g : nat -> cell) idxs :
  (forall i, In i idxs -> cellAt i = Normal (g i)) ->
  all_marked marked cellAt idxs = Normal (forallb (satisfied marked) (map g idxs)).
Proof.
  induction idxs as [|i idxs IH]; intros Hget; [reflexivity|].
  cbn [all_marked map forallb]. rewrite (Hget i) by (left; reflexivity).
  cbn. rewrite IH by (intros; apply Hget; right; assumption).
  destruct (g i) as [n| |]; cbn; [destruct (bool_decide _)|..]; reflexivity.
Qed.

Lemma count_unmarked_spec (marked : gset Z) cellAt (g : nat -> cell) idxs n :
  (forall i, In i idxs -> cellAt i = Normal (g i)) ->
  count_unmarked marked cellAt idxs n
  = Normal (n + length (List.filter (fun c => negb (satisfied marked c)) (map g idxs)))%nat.
Proof.
  revert n. induction idxs as [|i idxs IH]; intros n Hget.
  - cbn. f_equal. lia.
  - cbn [count_unmarked map List.filter]. rewrite (Hget i) by (left; reflexivity).
    cbn. destruct (g i) as [k| |]; cbn; [destruct (bool_decide _); cbn|..];
      rewrite IH by (intros; apply Hget; right; assumption); f_equal; cbn; lia.
Qed.

Lemma first_complete_spec check found (p : nat -> bool) idxs rest :
  (forall i, In i idxs -> check i = Normal (p i)) ->
  first_complete check found idxs rest
  = match List.find p idxs with
    | Some i => Normal (found i)
    | None => rest
    end.
Proof.
  induction idxs as [|i idxs IH]; intros Hc; [reflexivity|].
  cbn [first_complete List.find]. rewrite (Hc i) by (left; reflexivity).
  cbn. destruct (p i); [reflexivity|].
  apply IH. intros; apply Hc; right; assumption.
Qed.

Lemma any_one_away_spec cardArray (marked : gset Z) (u : Line -> nat) ls :
  (forall l, In l ls -> line_unmarked cardArray marked l = Normal (u l)) ->
  any_one_away cardArray marked ls
  = Normal (existsb (fun l => Nat.eqb (u l) 1) ls).
Proof.
  induction ls as [|l ls IH]; intros Hu; [reflexivity|].
  cbn [any_one_away existsb]. rewrite (Hu l) by (left; reflexivity).
  cbn. destruct (Nat.eqb (u l) 1); [reflexivity|].
  apply IH. intros; apply Hu; right; assumption.
Qed.

(** Every array built by [cardToArray] has its 25 cells, whatever the
    lengths of the columns. *)
Lemma cell_at_rows (f : nat -> list cell) i j :
  (i < 5)%nat ->
  cell_at (map f (seq 0 5)) i j = Normal (default Undefined (f i !! j)).
Proof.
  intros Hi. do 5 (destruct i as [|i]; [reflexivity|]). lia.
Qed.

Lemma In_seq_5 i : In i (seq 0 5) -> (i < 5)%nat.
Proof. rewrite in_seq. lia. Qed.

Section BuiltArray.
Variable f : nat -> list cell.
Variable marked : gset Z.
Let cardArray := map f (seq 0 5).
Let cf (i j : nat) : cell := default Undefined (f i !! j).

Lemma checkLine_row r :
  (r < 5)%nat ->
  checkLine cardArray marked r TRow = Normal (line_satisfied cf marked (Row, r)).
Proof.
  intros Hr. unfold checkLine.
  rewrite (all_marked_spec marked _ (cf r))
    by (intros; apply cell_at_rows; assumption).
  reflexivity.
Qed.

Lemma checkLine_column c :
  checkLine cardArray marked c TColumn = Normal (line_satisfied cf marked (Column, c)).
Proof.
  unfold checkLine.
  rewrite (all_marked_spec marked _ (fun i => cf i c))
    by (intros i Hi; apply cell_at_rows, In_seq_5, Hi).
  reflexivity.
Qed.

Lemma checkDiagonal_main :
  checkDiagonal cardArray marked Main = Normal (line_satisfied cf marked (Diagonal, 0%nat)).
Proof.
  unfold checkDiagonal.
  rewrite (all_marked_spec marked _ (fun i => cf i i))
    by (intros i Hi; apply cell_at_rows, In_seq_5, Hi).
  reflexivity.
Qed.

Lemma checkDiagonal_anti :
  checkDiagonal cardArray marked Anti = Normal (line_satisfied cf marked (Diagonal, 1%nat)).
Proof.
  unfold checkDiagonal.
  rewrite (all_marked_spec marked _ (fun i => cf i (4 - i)%nat))
    by (intros i Hi; apply cell_at_rows, In_seq_5, Hi).
  reflexivity.
Qed.

Lemma checkWin_lines_spec :
  checkWin_lines cardArray marked = Normal (classify_on cf marked).
Proof.
  unfold checkWin_lines.
  rewrite (first_complete_spec _ _ (fun r => line_satisfied cf marked (Row, r)))
    by (intros r Hr; apply checkLine_row, In_seq_5, Hr).
  rewrite (first_complete_spec _ _ (fun c => line_satisfied cf marked (Column, c)))
    by (intros c _; apply checkLine_column).
  rewrite checkDiagonal_main, checkDiagonal_anti.
  unfold classify_on. cbn -[line_satisfied].
  repeat (destruct (line_satisfied cf marked _); [reflexivity|]).
  reflexivity.
Qed.

Lemma line_unmarked_spec l :
  In l lines ->
  line_unmarked cardArray marked l = Normal (unmarked_count cf marked (type l, index l)).
Proof.
  intros Hl. unfold line_unmarked.
  cbn in Hl.
  repeat (destruct Hl as [<-|Hl];
    [ cbn [type index Nat.eqb];
      match goal with
      | |- count_unmarked _ (fun i => cell_at _ ?r i) _ _ = _ =>
          rewrite (count_unmarked_spec marked _ (cf r))
            by (intros; apply cell_at_rows; lia)
      | |- count_unmarked _ (fun i => cell_at _ i (@?c i)) _ _ = _ =>
          rewrite (count_unmarked_spec marked _ (fun i => cf i (c i)))
            by (intros i Hi; apply cell_at_rows, In_seq_5, Hi)
      end; reflexivity |]).
  destruct Hl.
Qed.

Lemma any_one_away_lines :
  any_one_away cardArray marked lines = Normal (near_win_on cf marked).
Proof.
  rewrite (any_one_away_spec _ _ (fun l => unmarked_count cf marked (type l, index l)))
    by apply line_unmarked_spec.
  reflexivity.
Qed.
End BuiltArray.


Lemma find_first {A} (p : A -> bool) (l : list A) :
  match List.find p l with
  | Some x => exists before after,
      l = before ++ x :: after /\ Forall (fun y => p y = false) before /\ p x = true
  | None => Forall (fun y => p y = false) l
  end.
Proof.
  induction l as [|a l IH]; cbn; [constructor|].
  destruct (p a) eqn:Ha.
  - exists [], l. repeat split; [constructor | assumption].
  - destruct (List.find p l) as [x|].
    + destruct IH as (before & after & -> & Hb & Hx).
      exists (a :: before), after. repeat split; [constructor|]; assumption.
    + constructor; assumption.
Qed.

Lemma classify_on_reports g (marked : gset Z) :
  reports g marked (classify_on g marked).
Proof.
  unfold classify_on.
  pose proof (find_first (line_satisfied g marked) candidate_lines) as H.
  destruct (List.find _ candidate_lines) as [[p i]|].
  - destruct H as (before & after & E & Hb & Hx). eapply reports_win; eassumption.
  - apply reports_none, H.
Qed.

Lemma near_win_on_iff g (marked : gset Z) :
  near_win_on g marked = true
  <-> exists l, In l candidate_lines /\ unmarked_count g marked l = 1%nat.
Proof.
  unfold near_win_on. rewrite existsb_exists.
  split; intros (l & Hl & H); exists l; (split; [assumption|]);
    apply Nat.eqb_eq; assumption.
Qed.

Lemma satisfied_empty_num n : satisfied ∅ (Num n) = false.
Proof. apply bool_decide_eq_false_2, not_elem_of_empty. Qed.

Lemma column_ok_explicit n c :
  column_ok n c = true -> exists l, c = Some l /\ length l = n.
Proof.
  destruct c as [l|]; [|discriminate]. cbn. intros H%Nat.eqb_eq. eauto.
Qed.

(** A well-formed card, column by column and number by number. *)
Lemma well_formed_explicit card :
  well_formed card ->
  exists m0 m1 m2 m3 m4 y0 y1 y2 y3 y4 n0 n1 n2 n3 g0 g1 g2 g3 g4 o0 o1 o2 o3 o4,
    card = mkCard (Some [m0; m1; m2; m3; m4]) (Some [y0; y1; y2; y3; y4])
             (Some [n0; n1; n2; n3]) (Some [g0; g1; g2; g3; g4])
             (Some [o0; o1; o2; o3; o4]).
Proof.
  destruct card as [cM cY cN cG cO]. unfold well_formed, well_formedb. cbn.
  rewrite !andb_true_iff.
  intros [[[[(lM & -> & HM)%column_ok_explicit (lY & -> & HY)%column_ok_explicit]
              (lN & -> & HN)%column_ok_explicit] (lG & -> & HG)%column_ok_explicit]
            (lO & -> & HO)%column_ok_explicit].
  do 6 (destruct lM as [|? lM]; try discriminate HM).
  do 6 (destruct lY as [|? lY]; try discriminate HY).
  do 5 (destruct lN as [|? lN]; try discriminate HN).
  do 6 (destruct lG as [|? lG]; try discriminate HG).
  do 6 (destruct lO as [|? lO]; try discriminate HO).
  repeat eexists.
Qed.

Ltac explicit_card H :=
  apply well_formed_explicit in H;
  repeat match type of H with ex _ => destruct H as [? H] end;
  subst.

Lemma classifyCard_empty card : well_formed card -> classifyCard card ∅ = noWin.
Proof.
  intros Hwf. explicit_card Hwf.
  unfold classifyCard, classify_on, line_satisfied, line_cells.
  cbn -[satisfied]. rewrite !satisfied_empty_num. reflexivity.
Qed.

Lemma classifyNearWin_empty card : well_formed card -> classifyNearWin card ∅ = false.
Proof.
  intros Hwf. explicit_card Hwf.
  unfold classifyNearWin, near_win_on, unmarked_count, line_cells.
  cbn -[satisfied]. rewrite !satisfied_empty_num. reflexivity.
Qed.


(** ** The win classifier *)

(** C1. On a well-formed card [checkWin] builds the grid of the
    specification (the stored values position by position, the free cell
    in row 2 of the N column, a number everywhere else) and returns what
    the specification's classifier returns on it: the first fully
    satisfied line in the order rows 0-4, columns 0-4, main diagonal,
    anti-diagonal, tagged with its kind and index, or no-win when no line
    is fully satisfied. *)
Theorem checkWin_classifies (card : MyngoCard) (markedNumbers : list Z) :
  well_formed card ->
  cardToArray (Some card) = Normal (grid_rows card)
  /\ grid_cell card 2 2 = WILD
  /\ (forall i j, (i < 5)%nat -> (j < 5)%nat -> (i, j) <> (2%nat, 2%nat) ->
        exists n, grid_cell card i j = Num n)
  /\ checkWin (Some card) (Some markedNumbers)
     = Normal (classifyCard card (list_to_set markedNumbers))
  /\ reports (grid_cell card) (list_to_set markedNumbers)
       (classifyCard card (list_to_set markedNumbers)).
Proof.
  intros Hwf. split; [|split; [|split; [|split]]].
  - explicit_card Hwf. reflexivity.
  - explicit_card Hwf. reflexivity.
  - explicit_card Hwf. intros i j Hi Hj Hne.
    do 5 (destruct i as [|i]; [do 5 (destruct j as [|j]; [first [congruence | eexists; reflexivity]|]); lia|]).
    lia.
  - destruct markedNumbers as [|x l].
    + exact (f_equal Normal (eq_sym (classifyCard_empty card Hwf))).
    + explicit_card Hwf. unfold checkWin. cbn [cardToArray mbind completion_bind].
      rewrite checkWin_lines_spec. reflexivity.
  - apply classify_on_reports.
Qed.

Lemma checkWin_classifies_witness :
  well_formed sample_card
  /\ checkWin (Some sample_card) (Some [3; 18; 48; 63])
     = Normal (classifyCard sample_card (list_to_set [3; 18; 48; 63])).
Proof.
  split; [reflexivity|].
  apply (checkWin_classifies sample_card [3; 18; 48; 63]). reflexivity.
Defined.

(** ** The near-win classifier *)

(** C2. On a well-formed card [isCloseToWin] returns true if and only if
    one of the twelve candidate lines has exactly one cell that is neither
    the free cell nor marked. *)
Theorem isCloseToWin_one_away (card : MyngoCard) (markedNumbers : list Z) :
  well_formed card ->
  exists b,
    isCloseToWin (Some card) (Some markedNumbers) = Normal b
    /\ b = classifyNearWin card (list_to_set markedNumbers)
    /\ (b = true <->
        exists l, In l candidate_lines
          /\ unmarked_count (grid_cell card) (list_to_set markedNumbers) l = 1%nat).
Proof.
  intros Hwf. exists (classifyNearWin card (list_to_set markedNumbers)).
  split; [|split; [reflexivity | apply near_win_on_iff]].
  destruct markedNumbers as [|x l].
  - exact (f_equal Normal (eq_sym (classifyNearWin_empty card Hwf))).
  - explicit_card Hwf. unfold isCloseToWin, closeToWin_body.
    cbn [cardToArray mbind completion_bind].
    rewrite any_one_away_lines. reflexivity.
Qed.

Lemma isCloseToWin_one_away_witness :
  well_formed sample_card
  /\ exists b,
    isCloseToWin (Some sample_card) (Some [3; 18; 48]) = Normal b
    /\ b = classifyNearWin sample_card (list_to_set [3; 18; 48])
    /\ (b = true <->
        exists l, In l candidate_lines
          /\ unmarked_count (grid_cell sample_card) (list_to_set [3; 18; 48]) l = 1%nat).
Proof.
  split; [reflexivity|].
  apply (isCloseToWin_one_away sample_card [3; 18; 48]). reflexivity.
Defined.

(** ** Malformed cards *)

Lemma cardToArray_missing card :
  missing_column card -> cardToArray (Some card) = Throw "Invalid card structure".
Proof.
  destruct card as [[cM|] [cY|] [cN|] [cG|] [cO|]]; try reflexivity.
  intros [H|[H|[H|[H|H]]]]; discriminate H.
Qed.

Lemma cardToArray_total card :
  cardToArray card = Throw "Invalid card structure"
  \/ exists f, cardToArray card = Normal (map f (seq 0 5)).
Proof.
  destruct card as [[[cM|] [cY|] [cN|] [cG|] [cO|]]|]; try (left; reflexivity).
  right. eexists. reflexivity.
Qed.

Lemma checkWin_returns card markedNumbers :
  exists r, checkWin card markedNumbers = Normal r.
Proof.
  destruct card as [card|]; [|eexists; reflexivity].
  destruct markedNumbers as [[|x l]|]; try (eexists; reflexivity).
  unfold checkWin.
  destruct (cardToArray_total (Some card)) as [->|[f ->]]; [eexists; reflexivity|].
  cbn [mbind completion_bind]. rewrite checkWin_lines_spec. eexists; reflexivity.
Qed.

Lemma isCloseToWin_returns card markedNumbers :
  exists b, isCloseToWin card markedNumbers = Normal b.
Proof.
  destruct card as [card|]; [|eexists; reflexivity].
  destruct markedNumbers as [[|x l]|]; try (eexists; reflexivity).
  unfold isCloseToWin, closeToWin_body.
  destruct (cardToArray_total (Some card)) as [->|[f ->]]; [eexists; reflexivity|].
  cbn [mbind completion_bind]. rewrite any_one_away_lines. eexists; reflexivity.
Qed.

(** C4, as the code has it.  A card without one of its five columns, and
    a missing card, is classified as no-win and not close to a win, and
    neither classifier ever throws, whatever the card and the marks.
    (Columns of a wrong length are not detected.) *)
Theorem classifiers_fail_closed_on_missing_column
    (card : MyngoCard) (markedNumbers : option (list Z)) :
  missing_column card ->
  checkWin (Some card) markedNumbers = Normal noWin
  /\ isCloseToWin (Some card) markedNumbers = Normal false
  /\ checkWin None markedNumbers = Normal noWin
  /\ isCloseToWin None markedNumbers = Normal false
  /\ (forall c m, ~ throws (checkWin c m))
  /\ (forall c m, ~ throws (isCloseToWin c m)).
Proof.
  intros Hmiss. split; [|split; [|split; [reflexivity|split; [reflexivity|split]]]].
  - destruct markedNumbers as [[|x l]|]; try reflexivity.
    unfold checkWin. rewrite cardToArray_missing by assumption. reflexivity.
  - destruct markedNumbers as [[|x l]|]; try reflexivity.
    unfold isCloseToWin, closeToWin_body.
    rewrite cardToArray_missing by assumption. reflexivity.
  - intros c m [e He]. destruct (checkWin_returns c m) as [r Hr]. congruence.
  - intros c m [e He]. destruct (isCloseToWin_returns c m) as [r Hr]. congruence.
Qed.

Lemma classifiers_fail_closed_on_missing_column_witness :
  missing_column card_without_M
  /\ checkWin (Some card_without_M) (Some [16; 31; 46; 61]) = Normal noWin
  /\ isCloseToWin (Some card_without_M) (Some [16; 31; 46; 61]) = Normal false.
Proof.
  split; [left; reflexivity|].
  destruct (classifiers_fail_closed_on_missing_column card_without_M
              (Some [16; 31; 46; 61]) (or_introl eq_refl)) as (H1 & H2 & _).
  split; assumption.
Defined.

(** C4 as stated fails on a column of the wrong length: with six numbers
    in the M column the first five are used, a marked top row is reported
    as a win, and a second row with one number missing counts as close to a
    win. *)
Lemma wrong_length_card_still_classified :
  malformed card_long_M
  /\ checkWin (Some card_long_M) (Some [1; 16; 31; 46; 61; 2; 17; 32; 47])
     = Normal (win Row 0)
  /\ isCloseToWin (Some card_long_M) (Some [1; 16; 31; 46; 61; 2; 17; 32; 47])
     = Normal true
  /\ malformed card_short_O
  /\ checkWin (Some card_short_O) (Some [1; 16; 31; 46; 61; 2; 17; 32; 47])
     = Normal (win Row 0)
  /\ ~ (forall card markedNumbers, malformed card ->
          checkWin (Some card) markedNumbers = Normal noWin
          /\ isCloseToWin (Some card) markedNumbers = Normal false).
Proof.
  assert (Hw : checkWin (Some card_long_M) (Some [1; 16; 31; 46; 61; 2; 17; 32; 47])
               = Normal (win Row 0)) by (vm_compute; reflexivity).
  split; [reflexivity|]. split; [exact Hw|]. split; [vm_compute; reflexivity|].
  split; [reflexivity|]. split; [vm_compute; reflexivity|].
  intros H.
  destruct (H card_long_M (Some [1; 16; 31; 46; 61; 2; 17; 32; 47]) eq_refl) as [H1 _].
  rewrite Hw in H1. discriminate H1.
Qed.

(** C8. On a card without one of its columns and a non-empty list of
    marks the legacy function throws 'Invalid card structure', and
    [isCloseToWin] returns false. *)
Theorem isCloseToWinLegacy_throws (card : MyngoCard) (markedNumbers : list Z) :
  missing_column card ->
  markedNumbers <> [] ->
  isCloseToWinLegacy (Some card) (Some markedNumbers) = Throw "Invalid card structure"
  /\ isCloseToWin (Some card) (Some markedNumbers) = Normal false.
Proof.
  intros Hmiss Hne. destruct markedNumbers as [|x l]; [congruence|].
  unfold isCloseToWinLegacy, isCloseToWin, closeToWin_body.
  rewrite cardToArray_missing by assumption. split; reflexivity.
Qed.

Lemma isCloseToWinLegacy_throws_witness :
  missing_column card_without_M
  /\ [16; 31] <> ([] : list Z)
  /\ isCloseToWinLegacy (Some card_without_M) (Some [16; 31]) = Throw "Invalid card structure"
  /\ isCloseToWin (Some card_without_M) (Some [16; 31]) = Normal false.
Proof.
  assert (Hm : missing_column card_without_M) by (left; reflexivity).
  assert (Hn : [16; 31] <> ([] : list Z)) by discriminate.
  split; [exact Hm|]. split; [exact Hn|].
  exact (isCloseToWinLegacy_throws card_without_M [16; 31] Hm Hn).
Defined.

(** ** Letters *)

Lemma in_range_spec (a b n : Z) :
  Bool.reflect (a <= n <= b) ((a <=? n) && (n <=? b)).
Proof.
  apply Bool.iff_reflect. rewrite andb_true_iff, !Z.leb_le. tauto.
Qed.

(** C9. [getLetterForNumber] returns the letter of the column whose range
    holds the number, and throws exactly outside 1..75. *)
Theorem getLetterForNumber_ranges (n : Z) :
  (1 <= n <= 15 -> getLetterForNumber n = Normal LM)
  /\ (16 <= n <= 30 -> getLetterForNumber n = Normal LY)
  /\ (31 <= n <= 45 -> getLetterForNumber n = Normal LN)
  /\ (46 <= n <= 60 -> getLetterForNumber n = Normal LG)
  /\ (61 <= n <= 75 -> getLetterForNumber n = Normal LO)
  /\ (throws (getLetterForNumber n) <-> ~ 1 <= n <= 75).
Proof.
  unfold getLetterForNumber, throws.
  destruct (in_range_spec 1 15 n);
    [|destruct (in_range_spec 16 30 n);
      [|destruct (in_range_spec 31 45 n);
        [|destruct (in_range_spec 46 60 n);
          [|destruct (in_range_spec 61 75 n)]]]];
  (repeat split; intros; try lia; try reflexivity; try (eexists; reflexivity));
  match goal with
  | H : exists _, Normal _ = Throw _ |- _ => destruct H; discriminate
  end.
Qed.

Lemma getLetterForNumber_ranges_witness :
  31 <= 42 <= 45 /\ getLetterForNumber 42 = Normal LN.
Proof.
  assert (H : 31 <= 42 <= 45) by lia.
  split; [exact H|].
  exact (proj1 (proj2 (proj2 (getLetterForNumber_ranges 42))) H).
Defined.

(** ** Available numbers *)

Lemma StronglySorted_filter {A} (R : A -> A -> Prop) (f : A -> bool) l :
  StronglySorted R l -> StronglySorted R (List.filter f l).
Proof.
  induction 1 as [|a l Hs IH Hall]; cbn; [constructor|].
  destruct (f a); [|assumption].
  constructor; [assumption|].
  rewrite List.Forall_forall in *. intros x [Hx _]%filter_In. auto.
Qed.

Lemma consecutive_sorted (base : Z) a n :
  StronglySorted Z.lt (map (fun i => Z.of_nat i + base) (seq a n)).
Proof.
  revert a. induction n as [|n IH]; intros a; cbn; constructor; [apply IH|].
  rewrite List.Forall_forall. intros x (i & <- & Hi%in_seq)%in_map_iff. lia.
Qed.

(** C10. [getAvailableNumbers] lists, in strictly ascending order,
    exactly the numbers of 1..75 that are not the number of a record of
    its input; on the empty input these are all 75 numbers. *)
Theorem getAvailableNumbers_exact (calledNumbers : list CalledNumber) :
  (forall n, In n (getAvailableNumbers calledNumbers)
             <-> 1 <= n <= 75 /\ ~ In n (map number calledNumbers))
  /\ StronglySorted Z.lt (getAvailableNumbers calledNumbers)
  /\ getAvailableNumbers [] = map Z.of_nat (seq 1 75).
Proof.
  split; [|split].
  - intros n. unfold getAvailableNumbers. rewrite filter_In, in_map_iff.
    rewrite negb_true_iff, bool_decide_eq_false, elem_of_list_to_set, list_elem_of_In.
    split.
    + intros [(i & <- & Hi%in_seq) Hn]. split; [lia|assumption].
    + intros [Hr Hn]. split; [|assumption].
      exists (Z.to_nat (n - 1)). rewrite in_seq. lia.
  - apply StronglySorted_filter, consecutive_sorted.
  - vm_compute. reflexivity.
Qed.

(** ** Card generation *)

Import Generator.
















(** ** The timing model *)

Import Number.

Lemma SFcompare_None x y :
  SFcompare x y = None -> is_NaN x = true \/ is_NaN y = true.
Proof.
  destruct x as [sx|sx| |sx mx ex], y as [sy|sy| |sy my ey]; cbn; auto;
    try discriminate; destruct sx; discriminate.
Qed.

Lemma SFcompare_swap x y c :
  SFcompare x y = Some c -> SFcompare y x = Some (CompOpp c).
Proof.
  destruct x as [sx|sx| |sx mx ex], y as [sy|sy| |sy my ey]; cbn;
    try discriminate;
    try (intros [= <-]; try destruct sx; try destruct sy; reflexivity).
  intros [= <-]. f_equal.
  pose proof (Pos.compare_cont_antisym mx my Eq) as E. cbn in E.
  destruct sx, sy; try reflexivity;
    rewrite (Z.compare_antisym ex ey); destruct (ex ?= ey); cbn; try reflexivity;
    rewrite <- E, ?CompOpp_involutive; reflexivity.
Qed.

Lemma SFcompare_refl_finite s m e :
  SFcompare (S754_finite s m e) (S754_finite s m e) = Some Eq.
Proof.
  cbn. rewrite Z.compare_refl, Pos.compare_cont_refl. destruct s; reflexivity.
Qed.

Lemma le_of_compare x y c : SFcompare x y = Some c -> c <> Gt -> le x y.
Proof. unfold le, SFleb. intros ->. destruct c; congruence. Qed.

Lemma le_of_compare_swap x y c : SFcompare y x = Some c -> c <> Lt -> le x y.
Proof.
  intros H%SFcompare_swap Hc. eapply le_of_compare; [exact H|].
  destruct c; cbn; congruence.
Qed.

(** Clamping a number that is not NaN between two ordinary bounds gives
    the lower bound when the number is not above it, the upper bound when
    the number is not below it, and the number itself otherwise; the
    result lies between the bounds. *)
Lemma clamp_bounds sl ml el sh mh eh (x : float64) :
  let lo := S754_finite sl ml el in
  let hi := S754_finite sh mh eh in
  SFcompare lo hi = Some Lt ->
  is_NaN x = false ->
  let r := Math_max lo (Math_min hi x) in
  le lo r /\ le r hi
  /\ ((r = lo /\ le x lo) \/ (r = hi /\ le hi x) \/ (r = x /\ lt lo x /\ lt x hi)).
Proof.
  intros lo hi Hlh Hx r. subst r.
  assert (Hlo : le lo lo) by (eapply le_of_compare; [apply SFcompare_refl_finite | discriminate]).
  assert (Hhi : le hi hi) by (eapply le_of_compare; [apply SFcompare_refl_finite | discriminate]).
  assert (Hlohi : le lo hi) by (eapply le_of_compare; [exact Hlh | discriminate]).
  assert (Hmax_hi : Math_max lo hi = hi) by (unfold Math_max; rewrite Hlh; reflexivity).
  assert (Hmin : (Math_min hi x = hi /\ le hi x)
                 \/ (Math_min hi x = x /\ SFcompare hi x = Some Gt)).
  { unfold Math_min. destruct (SFcompare hi x) as [[| |]|] eqn:Hc.
    - left. split; [reflexivity | eapply le_of_compare; [exact Hc | discriminate]].
    - left. split; [reflexivity | eapply le_of_compare; [exact Hc | discriminate]].
    - right. split; reflexivity.
    - apply SFcompare_None in Hc. cbn in Hc. destruct Hc; congruence. }
  destruct Hmin as [[-> Hle]|[-> Hc]].
  - rewrite Hmax_hi. split; [assumption|]. split; [assumption|].
    right. left. split; [reflexivity | assumption].
  - unfold Math_max.
    destruct (SFcompare lo x) as [[| |]|] eqn:Hc'.
    + change (match lo with S754_zero true => x | _ => lo end) with lo.
      split; [assumption|]. split; [assumption|]. left. split; [reflexivity|].
      eapply le_of_compare_swap; [exact Hc' | discriminate].
    + split; [|split].
      * eapply le_of_compare; [exact Hc' | discriminate].
      * eapply le_of_compare_swap; [exact Hc | discriminate].
      * right. right. split; [reflexivity|]. split.
        -- unfold lt, SFltb. rewrite Hc'. reflexivity.
        -- unfold lt, SFltb. rewrite (SFcompare_swap _ _ _ Hc). reflexivity.
    + split; [assumption|]. split; [assumption|]. left. split; [reflexivity|].
      eapply le_of_compare_swap; [exact Hc' | discriminate].
    + apply SFcompare_None in Hc'. cbn in Hc'. destruct Hc'; congruence.
Qed.

Lemma clamp_NaN lo hi : Math_max lo (Math_min hi NaN) = NaN.
Proof.
  unfold Math_min.
  replace (SFcompare hi NaN) with (@None comparison) by (destruct hi; reflexivity).
  unfold Math_max. destruct lo; reflexivity.
Qed.

(** *** Where NaN comes from *)

Lemma shr_1_nonneg mrs : 0 <= shr_m mrs -> 0 <= shr_m (shr_1 mrs).
Proof.
  destruct mrs as [m r s]. cbn. destruct m as [|p|p]; cbn; [lia| |lia].
  destruct p; cbn; lia.
Qed.

Lemma iter_shr_1_nonneg n : forall mrs,
  0 <= shr_m mrs -> 0 <= shr_m (SpecFloat.iter_pos shr_1 n mrs).
Proof.
  induction n as [n IH|n IH|]; intros mrs H; cbn.
  - apply IH, IH, shr_1_nonneg, H.
  - apply IH, IH, H.
  - apply shr_1_nonneg, H.
Qed.

Lemma shr_fexp_nonneg m e l :
  0 <= m -> 0 <= shr_m (fst (shr_fexp prec emax m e l)).
Proof.
  intros H. unfold shr_fexp, shr.
  assert (H0 : 0 <= shr_m (shr_record_of_loc m l)) by (destruct l as [|[| |]]; exact H).
  destruct (fexp prec emax (Zdigits2 m + e) - e); cbn; auto.
  apply iter_shr_1_nonneg, H0.
Qed.

Lemma binary_round_aux_not_NaN s m e l :
  0 <= m -> is_NaN (binary_round_aux prec emax s m e l) = false.
Proof.
  intros H. unfold binary_round_aux.
  pose proof (shr_fexp_nonneg m e l H) as H1.
  destruct (shr_fexp prec emax m e l) as [mrs' e']. cbn [fst] in H1.
  assert (H2 : 0 <= round_nearest_even (shr_m mrs') (loc_of_shr_record mrs')).
  { unfold round_nearest_even. destruct (loc_of_shr_record mrs') as [|[| |]];
      try destruct (Z.even (shr_m mrs')); lia. }
  pose proof (shr_fexp_nonneg _ e' loc_Exact H2) as H3.
  destruct (shr_fexp prec emax _ e' loc_Exact) as [mrs'' e'']. cbn [fst] in H3.
  destruct (shr_m mrs'') as [|p|p]; [reflexivity| |lia].
  destruct (e'' <=? emax - prec); reflexivity.
Qed.

Lemma binary_normalize_not_NaN m e s :
  is_NaN (binary_normalize prec emax m e s) = false.
Proof.
  destruct m as [|p|p]; cbn; [reflexivity| |]; unfold binary_round;
    destruct (shl_align _ _ _) as [mz ez]; apply binary_round_aux_not_NaN; lia.
Qed.

Lemma Math_round_is_NaN x : is_NaN (Math_round x) = is_NaN x.
Proof.
  destruct x as [s|s| |s m e]; try reflexivity.
  cbn [Math_round]. destruct (0 <=? e); [reflexivity|].
  apply binary_normalize_not_NaN.
Qed.

Lemma div_is_NaN a b :
  is_NaN (div a b)
  = is_NaN a || is_NaN b || (is_zero a && is_zero b) || (is_infinite a && is_infinite b).
Proof.
  destruct a as [sa|sa| |sa ma ea], b as [sb|sb| |sb mb eb]; try reflexivity.
  cbn [is_NaN is_zero is_infinite orb andb]. unfold div, SFdiv.
  destruct (SFdiv_core_binary prec emax (Z.pos ma) ea (Z.pos mb) eb) as [[mz ez] lz] eqn:E.
  apply binary_round_aux_not_NaN.
  unfold SFdiv_core_binary in E.
  destruct (Z.div_eucl _ (Z.pos mb)) as [q r] eqn:Eq.
  injection E as <- _ _.
  match type of Eq with Z.div_eucl ?m _ = _ =>
    assert (Hm : 0 <= m); [| pose proof (Z.div_pos m (Z.pos mb) Hm ltac:(lia)) as Hq;
       unfold Z.div in Hq; rewrite Eq in Hq; exact Hq] end.
  destruct (ea - eb - _) as [|p|p]; [lia| |lia].
  apply Z.shiftl_nonneg. lia.
Qed.

Lemma mul_is_NaN a b :
  is_NaN (mul a b)
  = is_NaN a || is_NaN b || (is_zero a && is_infinite b) || (is_infinite a && is_zero b).
Proof.
  destruct a as [sa|sa| |sa ma ea], b as [sb|sb| |sb mb eb]; try reflexivity.
  apply binary_round_aux_not_NaN. lia.
Qed.

Lemma sub_finite_is_NaN s m e b :
  is_NaN (sub (S754_finite s m e) b) = is_NaN b.
Proof.
  destruct b as [sb|sb| |sb mb eb]; try reflexivity.
  apply binary_normalize_not_NaN.
Qed.

(** *** [calculateCallFrequency] *)





Lemma clamp_is_NaN sl ml el sh mh eh (x : float64) :
  SFcompare (S754_finite sl ml el) (S754_finite sh mh eh) = Some Lt ->
  is_NaN (Math_max (S754_finite sl ml el) (Math_min (S754_finite sh mh eh) x)) = is_NaN x.
Proof.
  intros Hlh. destruct (is_NaN x) eqn:Hx.
  - destruct x; try discriminate Hx. change S754_nan with NaN. rewrite clamp_NaN. reflexivity.
  - destruct (clamp_bounds sl ml el sh mh eh x Hlh Hx) as (Hle & _).
    unfold le, SFleb in Hle. cbv zeta in Hle.
    destruct (Math_max _ _); try reflexivity. discriminate Hle.
Qed.

Lemma of_Z_60 : of_Z 60 = S754_finite false 8444249301319680 (-47).
Proof. vm_compute. reflexivity. Qed.









(** *** Inputs outside the domain *)

Lemma decimal_85_100 : decimal 85 100 = S754_finite false 7656119366529843 (-53).
Proof. vm_compute. reflexivity. Qed.

Lemma bufferedSeconds_is_NaN meetingMinutes :
  is_NaN (bufferedSeconds meetingMinutes) = is_NaN meetingMinutes.
Proof.
  unfold bufferedSeconds, buffer. rewrite of_Z_60, decimal_85_100, !mul_is_NaN. cbn.
  rewrite ?andb_false_r, ?orb_false_r. reflexivity.
Qed.




(** *** Monotonicity of [calculateCallsNeeded] *)

Lemma ln_10_pos : (0 < ln 10)%R.
Proof. rewrite <- ln_1. apply ln_increasing; lra. Qed.




(** The two values of the specification's examples: 50 calls for one
    player, 40 for ten. *)
Lemma calculateCallsNeeded_examples :
  RealModel.calculateCallsNeeded 1 = 50 /\ RealModel.calculateCallsNeeded 10 = 40.
Proof.
  unfold RealModel.calculateCallsNeeded, RealModel.log10. split.
  - rewrite ln_1. replace (50 - 10 * (0 / ln 10))%R with (IZR 50) by (unfold Rdiv; ring).
    rewrite (Zceil_eq 50) by lra. reflexivity.
  - replace (50 - 10 * (ln 10 / ln 10))%R with (IZR 40)
      by (pose proof ln_10_pos; field; lra).
    rewrite (Zceil_eq 40) by lra. reflexivity.
Qed.

(** Where ECMAScript fixes [Math.log10] the binary64 function and the
    formula over the reals give the same number of calls: 50 for one
    player, whatever the platform's logarithm. *)
Lemma calculateCallsNeeded_one_player (log10_approx : float64 -> float64) :
  Number.calculateCallsNeeded log10_approx (of_Z 1)
  = of_Z (RealModel.calculateCallsNeeded 1).
Proof.
  rewrite (proj1 calculateCallsNeeded_examples). vm_compute. reflexivity.
Qed.

(** * Further properties of the code *)

Import Derived Utils PlayerView Host.

(** ** Marks as a set *)

Lemma list_to_set_ext (l1 l2 : list Z) :
  (forall x, x ∈ l1 <-> x ∈ l2) -> (list_to_set l1 : gset Z) = list_to_set l2.
Proof. intros H. apply set_eq. intros x. rewrite !elem_of_list_to_set. apply H. Qed.

Lemma same_elements_nil (l1 l2 : list Z) :
  (forall x, x ∈ l1 <-> x ∈ l2) -> l1 = [] -> l2 = [].
Proof.
  intros H ->. destruct l2 as [|y l2]; [reflexivity|].
  exfalso. eapply not_elem_of_nil. apply H. left.
Qed.

(** X1. The classifiers see the marks as a set: the order of the marks and
    repeated marks do not matter. *)
Theorem classifiers_marks_as_set (card : option MyngoCard) (l1 l2 : list Z) :
  (forall x, x ∈ l1 <-> x ∈ l2) ->
  checkWin card (Some l1) = checkWin card (Some l2)
  /\ isCloseToWin card (Some l1) = isCloseToWin card (Some l2).
Proof.
  intros H.
  destruct card as [card|]; [|destruct l1, l2; split; reflexivity].
  destruct l1 as [|x1 l1], l2 as [|x2 l2].
  - split; reflexivity.
  - discriminate (same_elements_nil _ _ H eq_refl).
  - discriminate (same_elements_nil _ _ (fun x => iff_sym (H x)) eq_refl).
  - unfold checkWin, isCloseToWin, closeToWin_body.
    rewrite (list_to_set_ext _ _ H). split; reflexivity.
Qed.

Lemma classifiers_marks_as_set_witness :
  checkWin (Some sample_card) (Some [3; 18; 48; 63])
  = checkWin (Some sample_card) (Some [63; 48; 18; 3; 3]).
Proof.
  apply (classifiers_marks_as_set (Some sample_card) [3; 18; 48; 63] [63; 48; 18; 3; 3]).
  intros x. rewrite !elem_of_cons, !elem_of_nil. tauto.
Defined.

(** ** More marks, and the shape of a result *)

Lemma classify_on_hasWin g (marked : gset Z) :
  hasWin (classify_on g marked) = existsb (line_satisfied g marked) candidate_lines.
Proof.
  unfold classify_on.
  pose proof (find_first (line_satisfied g marked) candidate_lines) as H.
  destruct (List.find _ candidate_lines) as [[p i]|].
  - destruct H as (before & after & E & _ & Hx). cbn [hasWin win]. symmetry.
    apply existsb_exists. exists (p, i). split; [|exact Hx].
    rewrite E. apply in_or_app. right. left. reflexivity.
  - cbn [hasWin noWin]. symmetry. apply not_true_is_false. intros Hex.
    apply existsb_exists in Hex. destruct Hex as (l & Hl & Hs).
    rewrite List.Forall_forall in H. rewrite (H l Hl) in Hs. discriminate.
Qed.

Lemma satisfied_mono (m1 m2 : gset Z) c :
  m1 ⊆ m2 -> satisfied m1 c = true -> satisfied m2 c = true.
Proof.
  intros Hsub. destruct c as [n| |]; cbn; [|auto..].
  rewrite !bool_decide_eq_true. apply Hsub.
Qed.

Lemma list_to_set_mono (l1 l2 : list Z) :
  l1 ⊆ l2 -> (list_to_set l1 : gset Z) ⊆ list_to_set l2.
Proof. intros H z. rewrite !elem_of_list_to_set. apply H. Qed.

Lemma line_satisfied_mono g (m1 m2 : gset Z) l :
  m1 ⊆ m2 -> line_satisfied g m1 l = true -> line_satisfied g m2 l = true.
Proof.
  intros Hsub. unfold line_satisfied. rewrite !forallb_forall.
  intros H c Hc. eapply satisfied_mono; eauto.
Qed.

(** What [checkWin] and [isCloseToWin] compute on a card that has its
    five columns, whatever their lengths. *)
Lemma checkWin_present cM cY cN cG cO x l :
  checkWin (Some (mkCard (Some cM) (Some cY) (Some cN) (Some cG) (Some cO))) (Some (x :: l))
  = Normal (classify_on
              (fun i j => default Undefined (cardToArray_row cM cY cN cG cO i !! j))
              (list_to_set (x :: l))).
Proof.
  unfold checkWin. cbn [cardToArray mbind completion_bind].
  rewrite checkWin_lines_spec. reflexivity.
Qed.

Lemma isCloseToWin_present cM cY cN cG cO x l :
  isCloseToWin (Some (mkCard (Some cM) (Some cY) (Some cN) (Some cG) (Some cO))) (Some (x :: l))
  = Normal (near_win_on
              (fun i j => default Undefined (cardToArray_row cM cY cN cG cO i !! j))
              (list_to_set (x :: l))).
Proof.
  unfold isCloseToWin, closeToWin_body. cbn [cardToArray mbind completion_bind].
  rewrite any_one_away_lines. reflexivity.
Qed.

Lemma checkWin_won_inv card marked r :
  checkWin card marked = Normal r -> hasWin r = true ->
  exists cM cY cN cG cO x l,
    card = Some (mkCard (Some cM) (Some cY) (Some cN) (Some cG) (Some cO))
    /\ marked = Some (x :: l).
Proof.
  intros Hr Hw.
  destruct card as [[[cM|] [cY|] [cN|] [cG|] [cO|]]|], marked as [[|x l]|];
    cbn in Hr; try (injection Hr as <-; discriminate Hw).
  repeat eexists.
Qed.

(** X2. A win is never lost by marking more numbers: if the marks [l1] win on
    a card, every list of marks containing them wins too. *)
Theorem checkWin_more_marks (card : option MyngoCard) (l1 l2 : list Z) (r1 : WinCheck) :
  l1 ⊆ l2 ->
  checkWin card (Some l1) = Normal r1 ->
  hasWin r1 = true ->
  exists r2, checkWin card (Some l2) = Normal r2 /\ hasWin r2 = true.
Proof.
  intros Hsub Hr Hw.
  destruct (checkWin_won_inv _ _ _ Hr Hw) as (cM & cY & cN & cG & cO & x & l & -> & [= ->]).
  destruct l2 as [|y l2].
  { exfalso. eapply not_elem_of_nil. apply (Hsub x). apply elem_of_cons. left. reflexivity. }
  rewrite checkWin_present in Hr. injection Hr as <-.
  rewrite checkWin_present. eexists. split; [reflexivity|].
  rewrite classify_on_hasWin in *.
  apply existsb_exists in Hw. destruct Hw as (ln & Hln & Hs).
  apply existsb_exists. exists ln. split; [exact Hln|].
  eapply line_satisfied_mono; [|exact Hs].
  exact (list_to_set_mono _ _ Hsub).
Qed.

Lemma checkWin_more_marks_witness :
  exists r2, checkWin (Some sample_card) (Some [3; 18; 48; 63; 7]) = Normal r2
             /\ hasWin r2 = true.
Proof.
  apply (checkWin_more_marks (Some sample_card) [3; 18; 48; 63] [3; 18; 48; 63; 7] (win Row 2)).
  - intros x. rewrite !elem_of_cons. tauto.
  - vm_compute. reflexivity.
  - reflexivity.
Defined.

(** X3. A result is either no-win, or a win that names a row or column 0..4
    or a diagonal 0..1. *)
Theorem checkWin_result_shape (card : option MyngoCard) (marked : option (list Z)) :
  exists r, checkWin card marked = Normal r
    /\ (r = noWin
        \/ exists p i, r = win p i /\ (i < 5)%nat /\ (p = Diagonal -> (i < 2)%nat)).
Proof.
  destruct (checkWin_returns card marked) as [r Hr]. exists r. split; [exact Hr|].
  destruct (hasWin r) eqn:Hw.
  - destruct (checkWin_won_inv _ _ _ Hr Hw) as (cM & cY & cN & cG & cO & x & l & -> & ->).
    rewrite checkWin_present in Hr. injection Hr as <-.
    right. unfold classify_on in *.
    pose proof (find_first (line_satisfied
      (fun i j => default Undefined (cardToArray_row cM cY cN cG cO i !! j))
      (list_to_set (x :: l))) candidate_lines) as H.
    destruct (List.find _ candidate_lines) as [[p i]|]; [|discriminate Hw].
    destruct H as (before & after & E & _).
    assert (Hin : In (p, i) candidate_lines)
      by (rewrite E; apply in_or_app; right; left; reflexivity).
    exists p, i. split; [reflexivity|].
    cbn in Hin.
    repeat (destruct Hin as [[= <- <-]|Hin]; [split; [lia | intros; first [discriminate | lia]]|]).
    destruct Hin.
  - left.
    destruct card as [[[cM|] [cY|] [cN|] [cG|] [cO|]]|], marked as [[|x l]|];
      try (cbn in Hr; injection Hr as <-; reflexivity).
    rewrite checkWin_present in Hr. injection Hr as <-.
    unfold classify_on in *.
    destruct (List.find _ candidate_lines) as [[p i]|]; [discriminate Hw | reflexivity].
Qed.

(** X4. The legacy near-win function agrees with [isCloseToWin] on every card
    that has its five columns: there it never throws. *)
Theorem isCloseToWinLegacy_agrees (card : MyngoCard) (marked : option (list Z)) :
  ~ missing_column card ->
  isCloseToWinLegacy (Some card) marked = isCloseToWin (Some card) marked.
Proof.
  intros Hpresent.
  destruct card as [[cM|] [cY|] [cN|] [cG|] [cO|]];
    try (exfalso; apply Hpresent; unfold missing_column; cbn; tauto).
  destruct marked as [[|x l]|]; try reflexivity.
  rewrite isCloseToWin_present.
  unfold isCloseToWinLegacy, closeToWin_body. cbn [cardToArray mbind completion_bind].
  rewrite any_one_away_lines. reflexivity.
Qed.

Lemma isCloseToWinLegacy_agrees_witness :
  isCloseToWinLegacy (Some card_short_O) (Some [3; 18; 48])
  = isCloseToWin (Some card_short_O) (Some [3; 18; 48]).
Proof.
  apply (isCloseToWinLegacy_agrees card_short_O (Some [3; 18; 48])).
  intros [H|[H|[H|[H|H]]]]; discriminate H.
Defined.

(** ** Lines of a well-formed card *)

Lemma checkWin_well_formed card x l :
  well_formed card ->
  checkWin (Some card) (Some (x :: l)) = Normal (classifyCard card (list_to_set (x :: l))).
Proof. intros Hwf. explicit_card Hwf. rewrite checkWin_present. reflexivity. Qed.

Lemma isCloseToWin_well_formed card x l :
  well_formed card ->
  isCloseToWin (Some card) (Some (x :: l))
  = Normal (classifyNearWin card (list_to_set (x :: l))).
Proof. intros Hwf. explicit_card Hwf. rewrite isCloseToWin_present. reflexivity. Qed.

Lemma classify_on_noWin g (marked : gset Z) :
  hasWin (classify_on g marked) = false -> classify_on g marked = noWin.
Proof.
  unfold classify_on. destruct (List.find _ candidate_lines) as [[p i]|];
    [discriminate | reflexivity].
Qed.

Ltac solve_elem :=
  repeat (apply elem_of_cons; first [left; reflexivity | right]).

Ltac solve_sublist :=
  repeat first [ apply sublist_nil_l | apply sublist_skip | apply sublist_cons ].

Lemma cells_via_numbers (S : gset Z) cells :
  List.Forall (fun c => c <> Undefined) cells ->
  forallb (satisfied S) cells
  = forallb (fun n => bool_decide (n ∈ S)) (omap cell_number cells)
  /\ length (List.filter (fun c => negb (satisfied S c)) cells)
     = length (List.filter (fun n => negb (bool_decide (n ∈ S))) (omap cell_number cells)).
Proof.
  induction 1 as [|c cells Hc _ [IH1 IH2]]; [split; reflexivity|].
  destruct c as [n| |]; [| |congruence]; cbn.
  - rewrite IH1. split; [reflexivity|]. destruct (bool_decide (n ∈ S)); cbn; rewrite IH2; reflexivity.
  - split; assumption.
Qed.

(** On a well-formed card every line consists of its numbers
    [line_numbers] and possibly the free cell, and there are at least
    four numbers. *)
Lemma line_numbers_spec card l :
  well_formed card -> In l candidate_lines ->
  (4 <= length (line_numbers (grid_cell card) l))%nat
  /\ (forall n, n ∈ line_numbers (grid_cell card) l -> n ∈ card_numbers card)
  /\ (forall S : gset Z,
        line_satisfied (grid_cell card) S l
        = forallb (fun n => bool_decide (n ∈ S)) (line_numbers (grid_cell card) l))
  /\ (forall S : gset Z,
        unmarked_count (grid_cell card) S l
        = length (List.filter (fun n => negb (bool_decide (n ∈ S)))
                    (line_numbers (grid_cell card) l))).
Proof.
  intros Hwf Hl.
  assert (Hdef : List.Forall (fun c => c <> Undefined) (line_cells (grid_cell card) l)).
  { explicit_card Hwf. cbn in Hl.
    repeat (destruct Hl as [<-|Hl]; [repeat constructor; discriminate|]).
    destruct Hl. }
  split; [|split; [|split]].
  - explicit_card Hwf. cbn in Hl.
    repeat (destruct Hl as [<-|Hl]; [cbn; lia|]). destruct Hl.
  - explicit_card Hwf. cbn in Hl.
    repeat (destruct Hl as [<-|Hl];
      [ intros n Hn; cbn in Hn |- *;
        repeat (apply elem_of_cons in Hn as [->|Hn]; [solve_elem; fail|]);
        destruct (not_elem_of_nil _ Hn) |]).
    destruct Hl.
  - intros S. apply (cells_via_numbers S _ Hdef).
  - intros S. apply (cells_via_numbers S _ Hdef).
Qed.

Lemma line_numbers_NoDup card l :
  well_formed card -> NoDup (card_numbers card) -> In l candidate_lines ->
  NoDup (line_numbers (grid_cell card) l).
Proof.
  intros Hwf Hnd Hl. explicit_card Hwf. cbn in Hl, Hnd.
  repeat (destruct Hl as [<-|Hl];
    [ first [ eapply sublist_NoDup; [exact Hnd|]; cbn; solve_sublist; fail
            | rewrite <- reverse_Permutation; eapply sublist_NoDup; [exact Hnd|]; cbn; solve_sublist ] |]).
  destruct Hl.
Qed.

Lemma forallb_marked_incl (S : gset Z) ns :
  forallb (fun n => bool_decide (n ∈ S)) ns = true <-> forall n, n ∈ ns -> n ∈ S.
Proof.
  rewrite forallb_forall. split; intros H n Hn.
  - apply list_elem_of_In in Hn. exact (bool_decide_eq_true_1 _ (H n Hn)).
  - apply bool_decide_eq_true_2, H, list_elem_of_In, Hn.
Qed.

Lemma NoDup_incl_le (ns l : list Z) :
  NoDup ns -> (forall n, n ∈ ns -> n ∈ l) -> (length ns <= length l)%nat.
Proof. intros Hnd Hin. apply submseteq_length, NoDup_submseteq; assumption. Qed.

Lemma filter_partition_length (f : Z -> bool) ns :
  (length (List.filter f ns) + length (List.filter (fun n => negb (f n)) ns))%nat = length ns.
Proof.
  induction ns as [|n ns IH]; [reflexivity|]. cbn. destruct (f n); cbn; lia.
Qed.

(** ** Marking everything, and marking too little *)

Lemma first_row_when_all_marked (card : MyngoCard) (marked : list Z) :
  well_formed card ->
  (forall n, n ∈ card_numbers card -> n ∈ marked) ->
  line_satisfied (grid_cell card) (list_to_set marked) (Row, 0%nat) = true.
Proof.
  intros Hwf Hall.
  destruct (line_numbers_spec card (Row, 0%nat) Hwf) as (_ & Hin & Hsat & _);
    [left; reflexivity|].
  rewrite Hsat. apply forallb_marked_incl. intros n Hn.
  apply elem_of_list_to_set, Hall, Hin, Hn.
Qed.

Lemma card_numbers_first (card : MyngoCard) :
  well_formed card -> exists x l, card_numbers card = x :: l.
Proof. intros Hwf. explicit_card Hwf. cbn. eauto. Qed.

Lemma checkWin_first_row (card : MyngoCard) (x : Z) (l : list Z) :
  well_formed card ->
  line_satisfied (grid_cell card) (list_to_set (x :: l)) (Row, 0%nat) = true ->
  checkWin (Some card) (Some (x :: l)) = Normal (win Row 0).
Proof.
  intros Hwf Hrow. rewrite checkWin_well_formed by assumption.
  unfold classifyCard, classify_on, candidate_lines. cbn [List.find].
  rewrite Hrow. reflexivity.
Qed.

(** X5. With every number of a well-formed card marked, [checkWin] reports
    row 0, the first line of the order. *)
Theorem checkWin_all_marked (card : MyngoCard) (marked : list Z) :
  well_formed card ->
  (forall n, n ∈ card_numbers card -> n ∈ marked) ->
  checkWin (Some card) (Some marked) = Normal (win Row 0).
Proof.
  intros Hwf Hall.
  destruct marked as [|x l].
  - exfalso. destruct (card_numbers_first card Hwf) as (y & l' & E).
    eapply not_elem_of_nil. apply (Hall y). rewrite E. apply elem_of_cons. left. reflexivity.
  - apply checkWin_first_row; [assumption|].
    apply first_row_when_all_marked; assumption.
Qed.

Lemma checkWin_all_marked_witness :
  checkWin (Some sample_card) (Some (card_numbers sample_card)) = Normal (win Row 0).
Proof.
  apply (checkWin_all_marked sample_card (card_numbers sample_card));
    [reflexivity | intros n Hn; exact Hn].
Defined.

Lemma no_line_with_few_marks (card : MyngoCard) (marked : list Z) :
  well_formed card ->
  NoDup (card_numbers card) ->
  (length marked < 4)%nat ->
  existsb (line_satisfied (grid_cell card) (list_to_set marked)) candidate_lines = false.
Proof.
  intros Hwf Hnd Hlen.
  apply not_true_is_false. intros Hex. apply existsb_exists in Hex.
  destruct Hex as (ln & Hln & Hs).
  destruct (line_numbers_spec card ln Hwf Hln) as (H4 & _ & Hsat & _).
  rewrite Hsat in Hs. rewrite forallb_marked_incl in Hs.
  pose proof (NoDup_incl_le _ marked (line_numbers_NoDup card ln Hwf Hnd Hln)) as Hle.
  specialize (Hle (fun n Hn => proj1 (elem_of_list_to_set _ _) (Hs n Hn))). lia.
Qed.

Lemma checkWin_few_marks (card : MyngoCard) (marked : list Z) :
  well_formed card ->
  NoDup (card_numbers card) ->
  (length marked < 4)%nat ->
  checkWin (Some card) (Some marked) = Normal noWin.
Proof.
  intros Hwf Hnd Hlen. destruct marked as [|x l]; [reflexivity|].
  rewrite checkWin_well_formed by assumption. f_equal.
  apply classify_on_noWin. rewrite classify_on_hasWin.
  apply no_line_with_few_marks; assumption.
Qed.

(** X6. On a well-formed card without repeated numbers fewer than four marks
    never win, and fewer than three marks are never close to a win. *)
Theorem too_few_marks (card : MyngoCard) (marked : list Z) :
  well_formed card ->
  NoDup (card_numbers card) ->
  ((length marked < 4)%nat -> checkWin (Some card) (Some marked) = Normal noWin)
  /\ ((length marked < 3)%nat -> isCloseToWin (Some card) (Some marked) = Normal false).
Proof.
  intros Hwf Hnd. split; intros Hlen.
  - apply checkWin_few_marks; assumption.
  - destruct marked as [|x l]; [reflexivity|].
    rewrite isCloseToWin_well_formed by assumption. f_equal.
    apply not_true_is_false. intros Hex. apply near_win_on_iff in Hex.
    destruct Hex as (ln & Hln & Hone).
    destruct (line_numbers_spec card ln Hwf Hln) as (H4 & _ & _ & Hcount).
    rewrite Hcount in Hone.
    set (S := list_to_set (x :: l) : gset Z) in *.
    set (ns := line_numbers (grid_cell card) ln) in *.
    pose proof (filter_partition_length (fun n => bool_decide (n ∈ S)) ns) as Hpart.
    assert (Hle : (length (List.filter (fun n => bool_decide (n ∈ S)) ns) <= length (x :: l))%nat).
    { apply NoDup_incl_le.
      - apply NoDup_ListNoDup, List.NoDup_filter, NoDup_ListNoDup,
          (line_numbers_NoDup card ln Hwf Hnd Hln).
      - intros n Hn. apply list_elem_of_In, filter_In in Hn. destruct Hn as [_ Hn].
        apply bool_decide_eq_true_1 in Hn. apply elem_of_list_to_set in Hn. exact Hn. }
    lia.
Qed.

Lemma too_few_marks_witness :
  checkWin (Some sample_card) (Some [3; 18; 48]) = Normal noWin
  /\ isCloseToWin (Some sample_card) (Some [3; 18]) = Normal false.
Proof.
  assert (Hnd : NoDup (card_numbers sample_card))
    by (apply (bool_decide_unpack (NoDup (card_numbers sample_card))); vm_compute; exact I).
  destruct (too_few_marks sample_card [3; 18; 48] eq_refl Hnd) as [H1 _].
  destruct (too_few_marks sample_card [3; 18] eq_refl Hnd) as [_ H2].
  split; [apply H1 | apply H2]; cbn; lia.
Defined.

(** ** Near-win and win *)

Lemma handleMarkNumber_new marked n :
  n ∉ marked -> handleMarkNumber true marked n = marked ++ [n].
Proof.
  intros Hn. unfold handleMarkNumber, includes.
  rewrite bool_decide_eq_false_2 by assumption. reflexivity.
Qed.

Lemma unmarked_numbers_length (S : gset Z) ns :
  forallb (fun n => bool_decide (n ∈ S)) ns = false ->
  (1 <= length (List.filter (fun n => negb (bool_decide (n ∈ S))) ns))%nat.
Proof.
  induction ns as [|n ns IH]; cbn; [discriminate|].
  destruct (bool_decide (n ∈ S)); cbn; [exact IH | lia].
Qed.

(** X7. When a well-formed card is close to a win, some number of the card
    that is not yet marked completes a line: after [handleMarkNumber] has
    added it, [checkWin] reports a win. *)
Theorem near_win_one_mark_away (card : MyngoCard) (marked : list Z) :
  well_formed card ->
  isCloseToWin (Some card) (Some marked) = Normal true ->
  exists n,
    (n ∈ card_numbers card) /\ (n ∉ marked)
    /\ exists r, checkWin (Some card) (Some (handleMarkNumber true marked n)) = Normal r
                 /\ hasWin r = true.
Proof.
  intros Hwf Hclose.
  destruct marked as [|x l]; [discriminate Hclose|].
  rewrite isCloseToWin_well_formed in Hclose by assumption.
  remember (list_to_set (x :: l) : gset Z) as S eqn:HS in *.
  injection Hclose as Hclose. apply near_win_on_iff in Hclose.
  destruct Hclose as (ln & Hln & Hone).
  destruct (line_numbers_spec card ln Hwf Hln) as (_ & Hin & Hsat & Hcount).
  rewrite Hcount in Hone.
  remember (line_numbers (grid_cell card) ln) as ns eqn:Hns in *.
  remember (List.filter (fun k => negb (bool_decide (k ∈ S))) ns) as u eqn:Hu in *.
  destruct u as [|n [|? ?]]; try discriminate Hone.
  assert (Hn : In n (List.filter (fun k => negb (bool_decide (k ∈ S))) ns))
    by (rewrite <- Hu; left; reflexivity).
  apply filter_In in Hn. destruct Hn as [Hnin Hnot]. apply negb_true_iff, bool_decide_eq_false in Hnot.
  assert (Hnm : n ∉ x :: l)
    by (intros H; apply Hnot; rewrite HS; apply elem_of_list_to_set, H).
  exists n. split; [apply Hin, list_elem_of_In, Hnin|]. split; [exact Hnm|].
  rewrite handleMarkNumber_new by assumption. cbn [app].
  rewrite checkWin_well_formed by assumption. eexists. split; [reflexivity|].
  unfold classifyCard. rewrite classify_on_hasWin.
  apply existsb_exists. exists ln. split; [exact Hln|].
  rewrite Hsat. apply forallb_marked_incl. intros m Hm.
  apply (elem_of_list_to_set (C := gset Z) m ((x :: l) ++ [n])), elem_of_app.
  destruct (decide (m ∈ S)) as [HmS|HmS].
  - left. rewrite HS in HmS. apply elem_of_list_to_set in HmS. exact HmS.
  - right. assert (Hmf : In m (List.filter (fun k => negb (bool_decide (k ∈ S))) ns)).
    { apply filter_In. split; [apply list_elem_of_In, Hm|].
      apply negb_true_iff, bool_decide_eq_false, HmS. }
    rewrite <- Hu in Hmf. destruct Hmf as [<-|[]].
    apply elem_of_cons. left. reflexivity.
Qed.

Lemma near_win_one_mark_away_witness :
  exists n,
    (n ∈ card_numbers sample_card) /\ (n ∉ [3; 18; 48])
    /\ exists r, checkWin (Some sample_card) (Some (handleMarkNumber true [3; 18; 48] n))
                 = Normal r /\ hasWin r = true.
Proof.
  apply (near_win_one_mark_away sample_card [3; 18; 48]); [reflexivity|].
  vm_compute. reflexivity.
Defined.

Lemma checkWin_won_line card marked r :
  well_formed card ->
  checkWin (Some card) (Some marked) = Normal r ->
  hasWin r = true ->
  exists ln, In ln candidate_lines
    /\ forall m, m ∈ line_numbers (grid_cell card) ln -> m ∈ marked.
Proof.
  intros Hwf Hr Hwin.
  destruct marked as [|x l]; [injection Hr as <-; discriminate Hwin|].
  rewrite checkWin_well_formed in Hr by assumption.
  remember (list_to_set (x :: l) : gset Z) as S eqn:HS in *.
  injection Hr as <-. unfold classifyCard in Hwin. rewrite classify_on_hasWin in Hwin.
  apply existsb_exists in Hwin. destruct Hwin as (ln & Hln & Hs).
  exists ln. split; [exact Hln|].
  destruct (line_numbers_spec card ln Hwf Hln) as (_ & _ & Hsat & _).
  rewrite Hsat, forallb_marked_incl in Hs. intros m Hm.
  specialize (Hs m Hm). rewrite HS in Hs. apply elem_of_list_to_set in Hs. exact Hs.
Qed.

(** X8. Conversely, on a well-formed card without repeated numbers a win never
    comes unannounced: if the marks do not win and one more mark wins,
    the card was close to a win. *)
Theorem win_follows_near_win (card : MyngoCard) (marked : list Z) (n : Z)
    (r r' : WinCheck) :
  well_formed card ->
  NoDup (card_numbers card) ->
  checkWin (Some card) (Some marked) = Normal r ->
  hasWin r = false ->
  checkWin (Some card) (Some (marked ++ [n])) = Normal r' ->
  hasWin r' = true ->
  isCloseToWin (Some card) (Some marked) = Normal true.
Proof.
  intros Hwf Hnd Hr Hlose Hr' Hwin.
  assert (Hline : exists ln, In ln candidate_lines
            /\ forall m, m ∈ line_numbers (grid_cell card) ln -> m ∈ marked ++ [n])
    by (eapply checkWin_won_line; eassumption).
  destruct Hline as (ln & Hln & Hall).
  destruct (line_numbers_spec card ln Hwf Hln) as (H4 & _ & Hsat & Hcount).
  pose proof (line_numbers_NoDup card ln Hwf Hnd Hln) as Hdistinct.
  set (ns := line_numbers (grid_cell card) ln) in *.
  destruct marked as [|x l].
  - exfalso. pose proof (NoDup_incl_le ns [n] Hdistinct Hall) as Hle. cbn in Hle. lia.
  - rewrite checkWin_well_formed in Hr by assumption.
    rewrite isCloseToWin_well_formed by assumption.
    remember (list_to_set (x :: l) : gset Z) as S eqn:HS in *.
    injection Hr as <-.
    unfold classifyCard in Hlose. rewrite classify_on_hasWin in Hlose.
    f_equal. apply near_win_on_iff. exists ln. split; [exact Hln|].
    rewrite Hcount. fold ns.
    set (u := List.filter (fun k => negb (bool_decide (k ∈ S))) ns).
    assert (Hlow : (1 <= length u)%nat).
    { apply unmarked_numbers_length. rewrite <- Hsat.
      apply not_true_is_false. intros Hs.
      assert (Hex : existsb (line_satisfied (grid_cell card) S) candidate_lines = true)
        by (apply existsb_exists; exists ln; split; assumption).
      congruence. }
    assert (Hup : (length u <= length [n])%nat).
    { apply NoDup_incl_le.
      - apply NoDup_ListNoDup, List.NoDup_filter, NoDup_ListNoDup, Hdistinct.
      - intros m Hm. apply list_elem_of_In, filter_In in Hm. destruct Hm as [Hm Hnot].
        apply negb_true_iff, bool_decide_eq_false in Hnot.
        specialize (Hall m (proj2 (list_elem_of_In _ _) Hm)).
        apply elem_of_app in Hall. destruct Hall as [Hall|Hall]; [|exact Hall].
        exfalso. apply Hnot. rewrite HS. apply elem_of_list_to_set, Hall. }
    cbn in Hup. lia.
Qed.

Lemma win_follows_near_win_witness :
  isCloseToWin (Some sample_card) (Some [3; 18; 48]) = Normal true.
Proof.
  apply (win_follows_near_win sample_card [3; 18; 48] 63 noWin (win Row 2)).
  - reflexivity.
  - apply (bool_decide_unpack (NoDup (card_numbers sample_card))); vm_compute; exact I.
  - vm_compute. reflexivity.
  - reflexivity.
  - vm_compute. reflexivity.
  - reflexivity.
Defined.

(** ** Generated cards *)









(** ** The sampling loop at its limits *)

Lemma draw_exhausted (rnd : RandomSource) count :
  forall k available numbers,
    (length available < count)%nat -> draw rnd k count available numbers = None.
Proof.
  induction count as [|count IH]; intros k available numbers Hlen; [lia|].
  cbn [draw]. unfold splice1.
  destruct (available !! randomIndex (rnd k) available) as [x|] eqn:Hx; [|reflexivity].
  apply IH. rewrite length_delete by (eexists; exact Hx).
  apply lookup_lt_Some in Hx. lia.
Qed.

(** X11. Asking [getRandomNumbers] for more numbers than the range holds makes
    the loop read past the emptied array, whatever the random values: the
    array returned holds [undefined], which is [None] here, and not only
    numbers. *)
Theorem getRandomNumbers_too_many (rnd : RandomSource) (k : nat) (min max : Z) (count : nat) :
  (Z.to_nat (max - min + 1) < count)%nat ->
  getRandomNumbers rnd k min max count = None.
Proof.
  intros Hcount. unfold getRandomNumbers.
  rewrite draw_exhausted; [reflexivity|].
  rewrite length_map, length_seq. exact Hcount.
Qed.

Lemma getRandomNumbers_too_many_witness :
  getRandomNumbers always_half 0 1 3 5 = None.
Proof. apply (getRandomNumbers_too_many always_half 0 1 3 5). cbn. lia. Defined.




(** ** Room codes and random calls *)

Lemma floor_random_bounds (r : Q) (n : Z) :
  (0 <= r)%Q -> (r < 1)%Q -> 0 < n -> 0 <= floor_random r n < n.
Proof.
  intros H0 H1 Hn. unfold floor_random. split.
  - rewrite <- (Qfloor_Z 0). apply Qfloor_resp_le.
    apply Qmult_le_0_compat; [exact H0|].
    change 0%Q with (inject_Z 0). rewrite <- Zle_Qle. lia.
  - rewrite Zlt_Qlt. eapply Qle_lt_trans; [apply Qfloor_le|].
    eapply Qlt_le_trans.
    + apply Qmult_lt_compat_r; [|exact H1].
      change 0%Q with (inject_Z 0). rewrite <- Zlt_Qlt. assumption.
    + rewrite Qmult_1_l. apply Qle_refl.
Qed.

Lemma get_in_range (s : string) :
  forall n, (n < String.length s)%nat ->
  exists c, String.get n s = Some c /\ In c (list_ascii_of_string s).
Proof.
  induction s as [|a s IH]; intros n Hn; cbn in Hn; [lia|].
  destruct n as [|n]; cbn.
  - exists a. auto.
  - destruct (IH n ltac:(lia)) as (c & Hc & Hin). exists c. auto.
Qed.

Lemma charAt_in_range (s : string) (i : Z) :
  0 <= i < Z.of_nat (String.length s) ->
  exists c, charAt s i = String c EmptyString /\ In c (list_ascii_of_string s).
Proof.
  intros Hi. unfold charAt.
  destruct (Z.ltb_spec i 0); [lia|].
  destruct (get_in_range s (Z.to_nat i) ltac:(lia)) as (c & -> & Hin).
  exists c. auto.
Qed.

Lemma list_ascii_of_string_app (s t : string) :
  list_ascii_of_string (s +:+ t) = list_ascii_of_string s ++ list_ascii_of_string t.
Proof. induction s as [|a s IH]; [reflexivity | exact (f_equal (cons a) IH)]. Qed.

Lemma append_assoc (s t u : string) : (s +:+ t) +:+ u = s +:+ (t +:+ u).
Proof. induction s as [|a s IH]; [reflexivity | exact (f_equal (String a) IH)]. Qed.

Lemma append_empty_r (s : string) : s +:+ "" = s.
Proof. induction s as [|a s IH]; [reflexivity | exact (f_equal (String a) IH)]. Qed.

Lemma generateRoomCode_loop_spec (rnd : RandomSource) :
  unit_draws rnd ->
  forall n k code,
  exists suffix,
    generateRoomCode_loop rnd k n code = (code +:+ suffix, (k + n)%nat)
    /\ String.length suffix = n
    /\ List.Forall (fun c => In c (list_ascii_of_string chars)) (list_ascii_of_string suffix).
Proof.
  intros Hrnd. induction n as [|n IH]; intros k code.
  - exists "". cbn. split; [|split; [reflexivity | constructor]].
    rewrite append_empty_r. f_equal. lia.
  - cbn [generateRoomCode_loop].
    destruct (Hrnd k) as [H0 H1].
    destruct (charAt_in_range chars
                (floor_random (rnd k) (Z.of_nat (String.length chars)))) as (c & -> & Hc).
    { apply floor_random_bounds; [assumption | assumption | cbn; lia]. }
    destruct (IH (S k) (code +:+ String c EmptyString)) as (suffix & -> & Hlen & Hall).
    exists (String c suffix). split; [|split].
    + rewrite append_assoc. f_equal. lia.
    + cbn. rewrite Hlen. reflexivity.
    + cbn [list_ascii_of_string]. constructor; assumption.
Qed.

Lemma chars_not_ambiguous (c : Ascii.ascii) :
  In c (list_ascii_of_string chars) -> ~ ambiguous c.
Proof.
  intros Hin Hamb. cbn in Hin.
  destruct Hamb as [-> | [-> | [-> | ->]]];
    repeat (destruct Hin as [Hin|Hin]; [discriminate Hin|]); exact Hin.
Qed.

(** X13. A room code has six characters, each one of the 32 of [chars], none
    of them I, O, 0 or 1, and takes six random values. *)
Theorem generateRoomCode_alphabet (rnd : RandomSource) (k : nat) :
  unit_draws rnd ->
  exists code,
    generateRoomCode rnd k = (code, (k + 6)%nat)
    /\ String.length code = 6%nat
    /\ forall c, In c (list_ascii_of_string code) ->
         In c (list_ascii_of_string chars) /\ ~ ambiguous c.
Proof.
  intros Hrnd. unfold generateRoomCode.
  destruct (generateRoomCode_loop_spec rnd Hrnd 6 k "") as (code & E & Hlen & Hall).
  exists code. split; [exact E|]. split; [exact Hlen|].
  intros c Hc. rewrite List.Forall_forall in Hall.
  split; [apply Hall, Hc | apply chars_not_ambiguous, Hall, Hc].
Qed.

Lemma generateRoomCode_alphabet_witness :
  exists code,
    generateRoomCode always_half 0 = (code, 6%nat)
    /\ String.length code = 6%nat
    /\ forall c, In c (list_ascii_of_string code) ->
         In c (list_ascii_of_string chars) /\ ~ ambiguous c.
Proof.
  apply (generateRoomCode_alphabet always_half 0).
  intros k. split; [discriminate | reflexivity].
Defined.



(** ** The numbers left to call *)


Lemma filter_filter_and {A} (f g : A -> bool) (l : list A) :
  List.filter g (List.filter f l) = List.filter (fun x => f x && g x) l.
Proof.
  induction l as [|x l IH]; cbn; [reflexivity|].
  destruct (f x); cbn; [destruct (g x)|]; rewrite IH; reflexivity.
Qed.

(** X15. Calling one more number removes that number, and nothing else, from
    the numbers left to call, and keeps their order. *)
Theorem getAvailableNumbers_after_call (calledNumbers : list CalledNumber)
    (c : CalledNumber) :
  getAvailableNumbers (calledNumbers ++ [c])
  = List.filter (fun n => negb (n =? number c)) (getAvailableNumbers calledNumbers).
Proof.
  unfold getAvailableNumbers. rewrite filter_filter_and.
  apply List.filter_ext. intros n.
  rewrite map_app, list_to_set_app_L. cbn [map list_to_set].
  destruct (Z.eqb_spec n (number c)) as [->|Hne].
  - rewrite andb_false_r. apply negb_false_iff, bool_decide_eq_true.
    rewrite !elem_of_union, elem_of_singleton. auto.
  - rewrite andb_true_r. f_equal. apply bool_decide_ext.
    rewrite !elem_of_union, elem_of_singleton, elem_of_empty. tauto.
Qed.

Lemma filter_split_perm {A} (f : A -> bool) (l : list A) :
  Permutation l (List.filter (fun x => negb (f x)) l ++ List.filter f l).
Proof.
  induction l as [|x l IH]; cbn; [constructor|].
  destruct (f x); cbn.
  - rewrite <- Permutation_middle. constructor. exact IH.
  - constructor. exact IH.
Qed.

(** X16. When the called numbers are distinct numbers of 1..75, the numbers
    left to call together with the called ones are the numbers 1..75,
    each once; so [75 - calledNumbers.length] numbers are left. *)
Theorem getAvailableNumbers_complement (calledNumbers : list CalledNumber) :
  NoDup (map number calledNumbers) ->
  (forall n, n ∈ map number calledNumbers -> 1 <= n <= 75) ->
  Permutation (getAvailableNumbers calledNumbers ++ map number calledNumbers) all_numbers
  /\ (length (getAvailableNumbers calledNumbers) + length calledNumbers = 75)%nat.
Proof.
  intros Hnd Hrange.
  assert (Hperm : Permutation (getAvailableNumbers calledNumbers ++ map number calledNumbers)
                    all_numbers).
  { change all_numbers with (map (fun i => Z.of_nat i + 1) (seq 0 75)).
    unfold getAvailableNumbers.
    set (allNumbers := map (fun i => Z.of_nat i + 1) (seq 0 75)).
    set (S := list_to_set (map number calledNumbers) : gset Z).
    rewrite (filter_split_perm (fun n => bool_decide (n ∈ S)) allNumbers) at 2.
    apply Permutation_app_head.
    apply NoDup_Permutation.
    - exact Hnd.
    - apply NoDup_ListNoDup, List.NoDup_filter.
      unfold allNumbers. apply Finite.Injective_map_NoDup; [|apply List.seq_NoDup].
      intros i j. lia.
    - intros n. split; intros Hn.
      + apply list_elem_of_In, filter_In. split.
        * unfold allNumbers. apply in_map_iff. exists (Z.to_nat (n - 1)).
          specialize (Hrange n Hn). rewrite in_seq. lia.
        * apply bool_decide_eq_true. unfold S. apply elem_of_list_to_set, Hn.
      + apply list_elem_of_In, filter_In in Hn. destruct Hn as [_ Hn].
        apply bool_decide_eq_true in Hn. unfold S in Hn.
        apply elem_of_list_to_set in Hn. exact Hn. }
  split; [exact Hperm|].
  apply Permutation_length in Hperm.
  rewrite length_app, length_map in Hperm. exact Hperm.
Qed.

Lemma getAvailableNumbers_complement_witness :
  Permutation
    (getAvailableNumbers [mkCalled "c1" "r" 7 LM "t1"; mkCalled "c2" "r" 33 LN "t2"]
     ++ [7; 33]) all_numbers
  /\ (length (getAvailableNumbers [mkCalled "c1" "r" 7 LM "t1"; mkCalled "c2" "r" 33 LN "t2"])
      + 2 = 75)%nat.
Proof.
  apply (getAvailableNumbers_complement
           [mkCalled "c1" "r" 7 LM "t1"; mkCalled "c2" "r" 33 LN "t2"]).
  - apply (bool_decide_unpack (NoDup [7; 33])). vm_compute. exact I.
  - cbn. intros n Hn.
    apply elem_of_cons in Hn as [->|Hn]; [lia|].
    apply elem_of_cons in Hn as [->|Hn]; [lia|].
    apply not_elem_of_nil in Hn. contradiction.
Defined.

(** ** The host's next call *)



(** ** Clicks on the card *)

(** X18. The card component enables the button of a cell exactly when a click
    on it reaches [onMarkNumber]: [handleCellClick] hands over the number
    [n] if and only if the cell holds [n] and its [canClick] flag is set. *)
Theorem handleCellClick_iff_canClick (canMark : bool) (calledNumbers markedNumbers : list Z)
    (c : cell) (n : Z) :
  handleCellClick canMark calledNumbers markedNumbers c = Some n
  <-> c = Num n /\ canClick canMark calledNumbers markedNumbers c = true.
Proof.
  unfold handleCellClick, canClick.
  destruct c as [m| |]; cbn [has negb orb andb].
  - rewrite (bool_decide_eq_false_2 (Num m = WILD)) by discriminate.
    destruct canMark, (bool_decide (m ∈ list_to_set calledNumbers)),
      (bool_decide (m ∈ list_to_set markedNumbers)); cbn;
      (split; [intros H | intros [H1 H2]]); try discriminate;
      [injection H as ->; auto | injection H1 as ->; reflexivity].
  - split; [discriminate | intros [? _]; discriminate].
  - split; [destruct canMark; discriminate | intros [? _]; discriminate].
Qed.


Lemma handleCellClick_some canMark calledNumbers markedNumbers c n :
  handleCellClick canMark calledNumbers markedNumbers c = Some n ->
  c = Num n /\ canMark = true /\ n ∈ calledNumbers /\ n ∉ markedNumbers.
Proof.
  unfold handleCellClick. destruct c as [m| |]; [|discriminate|destruct canMark; discriminate].
  destruct canMark; cbn [negb has]; [|discriminate].
  destruct (bool_decide (m ∈ list_to_set calledNumbers)) eqn:Hc; cbn [negb]; [|discriminate].
  destruct (bool_decide (m ∈ list_to_set markedNumbers)) eqn:Hm; [discriminate|].
  intros [= ->].
  apply bool_decide_eq_true, elem_of_list_to_set in Hc.
  apply bool_decide_eq_false in Hm. rewrite elem_of_list_to_set in Hm. auto.
Qed.

(** X19. A click on a cell of the player's card either leaves the marks as
    they are or appends the number of the cell, which then was called and
    not yet marked; marks without repetition that were all called stay
    so. *)
Theorem clickCell_keeps_marks_valid (canMark currentPlayer : bool)
    (calledNumbers markedNumbers : list Z) (c : cell) :
  NoDup markedNumbers ->
  markedNumbers ⊆ calledNumbers ->
  let marks := clickCell canMark currentPlayer calledNumbers markedNumbers c in
  NoDup marks
  /\ marks ⊆ calledNumbers
  /\ (marks = markedNumbers
      \/ exists n, c = Num n /\ (n ∈ calledNumbers) /\ (n ∉ markedNumbers)
                   /\ marks = markedNumbers ++ [n]).
Proof.
  intros Hnd Hsub marks. subst marks. unfold clickCell.
  destruct (handleCellClick canMark calledNumbers markedNumbers c) as [n|] eqn:E;
    [|auto].
  apply handleCellClick_some in E. destruct E as (-> & _ & Hc & Hm).
  unfold handleMarkNumber.
  destruct (includes markedNumbers n) eqn:Hi; [auto|].
  destruct currentPlayer; cbn [negb]; [|auto].
  split; [|split].
  - apply NoDup_app. split; [exact Hnd|]. split; [|apply NoDup_singleton].
    intros x Hx Hx'. apply list_elem_of_singleton in Hx'. subst x. contradiction.
  - intros x Hx. apply elem_of_app in Hx as [Hx|Hx]; [apply Hsub, Hx|].
    apply list_elem_of_singleton in Hx. subst x. exact Hc.
  - right. exists n. auto.
Qed.

Lemma clickCell_keeps_marks_valid_witness :
  NoDup (clickCell true true [3; 18; 48] [3] (Num 18))
  /\ clickCell true true [3; 18; 48] [3] (Num 18) ⊆ [3; 18; 48]
  /\ (clickCell true true [3; 18; 48] [3] (Num 18) = [3]
      \/ exists n, Num 18 = Num n /\ (n ∈ [3; 18; 48]) /\ (n ∉ [3])
                   /\ clickCell true true [3; 18; 48] [3] (Num 18) = [3] ++ [n]).
Proof.
  apply (clickCell_keeps_marks_valid true true [3; 18; 48] [3] (Num 18)).
  - apply NoDup_singleton.
  - intros x Hx. apply list_elem_of_singleton in Hx. subst x.
    apply elem_of_cons. left. reflexivity.
Defined.

(** ** Synchronising the marks *)

(** X20. The test [isDifferent] is negative exactly when the two arrays hold
    the same numbers, whatever their order and repetitions. *)
Theorem isDifferent_same_elements (markedNumbers playerMarked : list Z) :
  isDifferent markedNumbers playerMarked = false
  <-> (forall n, n ∈ markedNumbers <-> n ∈ playerMarked).
Proof.
  unfold isDifferent.
  set (A := list_to_set markedNumbers : gset Z).
  set (B := list_to_set playerMarked : gset Z).
  assert (Hset : (forall n, n ∈ markedNumbers <-> n ∈ playerMarked) <-> A = B).
  { split.
    - intros H. apply set_eq. intros n. unfold A, B. rewrite !elem_of_list_to_set. apply H.
    - intros H n. rewrite <- !(elem_of_list_to_set (C := gset Z)). fold A B.
      rewrite H. reflexivity. }
  rewrite Hset. split.
  - intros H. apply orb_false_iff in H as [H HB]. apply orb_false_iff in H as [_ HA].
    apply set_eq. intros n. split; intros Hn.
    + destruct (decide (n ∈ B)) as [|Hnot]; [assumption|]. exfalso.
      apply not_true_iff_false in HA. apply HA, existsb_exists.
      exists n. split; [apply list_elem_of_In, elem_of_elements, Hn|].
      apply negb_true_iff, bool_decide_eq_false, Hnot.
    + destruct (decide (n ∈ A)) as [|Hnot]; [assumption|]. exfalso.
      apply not_true_iff_false in HB. apply HB, existsb_exists.
      exists n. split; [apply list_elem_of_In, elem_of_elements, Hn|].
      apply negb_true_iff, bool_decide_eq_false, Hnot.
  - intros <-. rewrite Nat.eqb_refl. cbn [negb orb].
    assert (H : existsb (fun num => negb (bool_decide (num ∈ A))) (elements A) = false).
    { apply not_true_is_false. intros Hex. apply existsb_exists in Hex.
      destruct Hex as (n & Hn & Hnot).
      apply list_elem_of_In, elem_of_elements in Hn.
      apply negb_true_iff, bool_decide_eq_false in Hnot. contradiction. }
    rewrite H. reflexivity.
Qed.

(** ** Bots *)



(** ** The range of the timing functions *)

Lemma Math_ceil_is_NaN x : is_NaN (Math_ceil x) = is_NaN x.
Proof.
  destruct x as [s|s| |s m e]; try reflexivity.
  cbn [Math_ceil]. destruct (0 <=? e); [reflexivity|].
  apply binary_normalize_not_NaN.
Qed.

Lemma of_Z_50 : of_Z 50 = S754_finite false 7036874417766400 (-47).
Proof. vm_compute. reflexivity. Qed.

Lemma of_Z_10 : of_Z 10 = S754_finite false 5629499534213120 (-49).
Proof. vm_compute. reflexivity. Qed.

Lemma callsNeeded_result_is_NaN (log10_approx : float64 -> float64) players :
  is_NaN (callsNeeded_result log10_approx players)
  = is_NaN (Math_log10 log10_approx players).
Proof.
  unfold callsNeeded_result.
  rewrite Math_ceil_is_NaN, of_Z_50, sub_finite_is_NaN, of_Z_10, mul_is_NaN. cbn.
  rewrite ?orb_false_r. reflexivity.
Qed.

Lemma calculateCallsNeeded_bounds (log10_approx : float64 -> float64) players :
  let result := calculateCallsNeeded log10_approx players in
  is_NaN result = is_NaN (Math_log10 log10_approx players)
  /\ (is_NaN (Math_log10 log10_approx players) = false ->
      le (of_Z 15) result /\ le result (of_Z 75)).
Proof.
  intros result. rewrite <- callsNeeded_result_is_NaN. split.
  - unfold result, calculateCallsNeeded.
    apply (clamp_is_NaN false 8444249301319680 (-49) false 5277655813324800 (-46)).
    reflexivity.
  - intros Hnan. unfold result, calculateCallsNeeded.
    destruct (clamp_bounds false 8444249301319680 (-49) false 5277655813324800 (-46)
                (callsNeeded_result log10_approx players) eq_refl Hnan) as (H1 & H2 & _).
    split; assumption.
Qed.

(** X22. [calculateCallsNeeded] gives NaN exactly when [Math.log10] of the
    player count is NaN; in every other case its result lies between 15
    and 75. *)
Theorem calculateCallsNeeded_range (log10_approx : float64 -> float64)
    (players : float64) :
  let result := calculateCallsNeeded log10_approx players in
  is_NaN result = is_NaN (Math_log10 log10_approx players)
  /\ (is_NaN (Math_log10 log10_approx players) = false ->
      le (of_Z 15) result /\ le result (of_Z 75)).
Proof. apply calculateCallsNeeded_bounds. Qed.

Lemma calculateCallsNeeded_range_witness :
  le (of_Z 15) (calculateCallsNeeded (fun _ => of_Z 2) (of_Z 100))
  /\ le (calculateCallsNeeded (fun _ => of_Z 2) (of_Z 100)) (of_Z 75).
Proof.
  apply (calculateCallsNeeded_range (fun _ => of_Z 2) (of_Z 100)). reflexivity.
Defined.

Lemma calculateSecondsBetweenCalls_bounds (meetingMinutes callsNeeded : float64) :
  let result := calculateSecondsBetweenCalls meetingMinutes callsNeeded in
  let not_a_quotient :=
    is_NaN meetingMinutes || is_NaN callsNeeded
    || (is_zero (bufferedSeconds meetingMinutes) && is_zero callsNeeded)
    || (is_infinite (bufferedSeconds meetingMinutes) && is_infinite callsNeeded) in
  is_NaN result = not_a_quotient
  /\ (not_a_quotient = false -> le (of_Z 5) result /\ le result (of_Z 120)).
Proof.
  intros result not_a_quotient.
  assert (Hq : is_NaN (betweenCalls_secondsPerCall meetingMinutes callsNeeded)
               = not_a_quotient).
  { unfold betweenCalls_secondsPerCall, not_a_quotient.
    rewrite Math_round_is_NaN, div_is_NaN, bufferedSeconds_is_NaN. reflexivity. }
  rewrite <- Hq. split.
  - unfold result, calculateSecondsBetweenCalls.
    apply (clamp_is_NaN false 5629499534213120 (-50) false 8444249301319680 (-46)).
    reflexivity.
  - intros Hnan. unfold result, calculateSecondsBetweenCalls.
    destruct (clamp_bounds false 5629499534213120 (-50) false 8444249301319680 (-46)
                (betweenCalls_secondsPerCall meetingMinutes callsNeeded) eq_refl Hnan)
      as (H1 & H2 & _).
    split; assumption.
Qed.

(** X23. [calculateSecondsBetweenCalls] gives NaN exactly when an argument is
    NaN or the quotient is 0/0 or Infinity/Infinity; in every other case
    its result lies between 5 and 120. *)
Theorem calculateSecondsBetweenCalls_range (meetingMinutes callsNeeded : float64) :
  let result := calculateSecondsBetweenCalls meetingMinutes callsNeeded in
  let not_a_quotient :=
    is_NaN meetingMinutes || is_NaN callsNeeded
    || (is_zero (bufferedSeconds meetingMinutes) && is_zero callsNeeded)
    || (is_infinite (bufferedSeconds meetingMinutes) && is_infinite callsNeeded) in
  is_NaN result = not_a_quotient
  /\ (not_a_quotient = false -> le (of_Z 5) result /\ le result (of_Z 120)).
Proof. apply calculateSecondsBetweenCalls_bounds. Qed.

Lemma calculateSecondsBetweenCalls_range_witness :
  le (of_Z 5) (calculateSecondsBetweenCalls (of_Z 30) (of_Z 25))
  /\ le (calculateSecondsBetweenCalls (of_Z 30) (of_Z 25)) (of_Z 120).
Proof.
  apply (calculateSecondsBetweenCalls_range (of_Z 30) (of_Z 25)). reflexivity.
Defined.

Lemma between_is_ordinary (lo hi x : float64) :
  lt (of_Z 0) lo -> is_finite hi = true -> le lo x -> le x hi ->
  is_NaN x = false /\ is_zero x = false /\ is_infinite x = false.
Proof.
  unfold lt, le, SFltb, SFleb. intros Hlo Hhi H1 H2.
  replace (of_Z 0) with (S754_zero false) in Hlo by (vm_compute; reflexivity).
  destruct x as [s|s| |s m e]; cbn [is_NaN is_zero is_infinite];
    [exfalso|exfalso|exfalso|auto].
  - destruct lo as [sl|[|]| |[|] ml el]; cbn in Hlo, H1; first [discriminate Hlo | discriminate H1].
  - destruct s.
    + destruct lo as [sl|[|]| |[|] ml el]; cbn in Hlo, H1; first [discriminate Hlo | discriminate H1].
    + destruct hi as [sh|sh| |sh mh eh]; cbn in Hhi, H2; first [discriminate Hhi | discriminate H2].
  - destruct lo as [sl|sl| |sl ml el]; cbn in H1; discriminate H1.
Qed.

(** X24. On the set-up page the calls needed feed the seconds between calls.
    When [Math.log10] of the expected players is not NaN, the divisor lies
    between 15 and 75, so the quotient is never taken by zero or by an
    infinity: the seconds between calls are NaN only for NaN minutes, and
    lie between 5 and 120 otherwise. *)
Theorem setup_secondsBetweenCalls_range (log10_approx : float64 -> float64)
    (expectedPlayers meetingDuration : float64) :
  is_NaN (Math_log10 log10_approx expectedPlayers) = false ->
  let result := HostSetup.secondsBetweenCalls log10_approx expectedPlayers meetingDuration in
  is_NaN result = is_NaN meetingDuration
  /\ (is_NaN meetingDuration = false -> le (of_Z 5) result /\ le result (of_Z 120)).
Proof.
  intros Hlog result. unfold result, HostSetup.secondsBetweenCalls. cbv zeta.
  destruct (calculateCallsNeeded_bounds log10_approx expectedPlayers) as [_ Hb].
  destruct (Hb Hlog) as [H15 H75].
  destruct (between_is_ordinary (of_Z 15) (of_Z 75) _ eq_refl eq_refl H15 H75)
    as (Hn & Hz & Hi).
  destruct (calculateSecondsBetweenCalls_bounds meetingDuration
              (calculateCallsNeeded log10_approx expectedPlayers)) as [HNaN Hrange].
  rewrite Hn, Hz, Hi, !andb_false_r, !orb_false_r in HNaN, Hrange.
  split; assumption.
Qed.

Lemma setup_secondsBetweenCalls_range_witness :
  le (of_Z 5) (HostSetup.secondsBetweenCalls (fun _ => of_Z 2) (of_Z 100) (of_Z 30))
  /\ le (HostSetup.secondsBetweenCalls (fun _ => of_Z 2) (of_Z 100) (of_Z 30)) (of_Z 120).
Proof.
  apply (setup_secondsBetweenCalls_range (fun _ => of_Z 2) (of_Z 100) (of_Z 30));
    reflexivity.
Defined.

(** ** The player list and the near-win panel *)

(** X25. Neither [getPlayerStatus] nor the filter of [nearWinPlayers] ever
    reaches its [catch]: the statements they protect always return.  They
    agree: a player who has not won is shown as close exactly when the
    filter keeps them, and a winner is shown as winner. *)
Theorem player_status_agrees_with_near_win (is_winner : bool)
    (card : option MyngoCard) (marked_numbers : option (list Z)) :
  exists b,
    PlayerList.nearWinPlayers_body card marked_numbers = Normal b
    /\ PlayerList.nearWinPlayers_keeps card marked_numbers = Normal b
    /\ PlayerList.getPlayerStatus_body is_winner card marked_numbers
       = Normal (if is_winner then StatusWinner
                 else if b then StatusClose else StatusPlaying)
    /\ PlayerList.getPlayerStatus is_winner card marked_numbers
       = Normal (if is_winner then StatusWinner
                 else if b then StatusClose else StatusPlaying).
Proof.
  unfold PlayerList.getPlayerStatus, PlayerList.nearWinPlayers_keeps,
    PlayerList.getPlayerStatus_body, PlayerList.nearWinPlayers_body.
  destruct card as [card|], marked_numbers as [l|];
    try (exists false; destruct is_winner; repeat split; reflexivity).
  destruct (isCloseToWin_returns (Some card) (Some l)) as [b ->].
  exists b. destruct is_winner; repeat split; reflexivity.
Qed.
